(** * StockDataAnalyzer (src/utils.py): a shallow embedding and its properties

    The class wraps a market-data provider: it fills in a default date range
    from the system clock, asks the provider for the daily bars of a ticker,
    selects columns and joins the price and the volume frames on the date.

    Layout of the development:
    - [outcome], [exn]: Python results and exceptions;
    - [PyDatetime]: the part of Python's [datetime] the class calls
      (proleptic Gregorian ordinals, [datetime - timedelta], [strftime]);
    - [Pandas]: the part of pandas the class calls (column selection,
      [reset_index], assignment to [columns], [merge], [sort_values],
      [set_index]) on a row-oriented frame;
    - [Analyzer]: the class itself, in a state-and-exception monad whose state
      holds the object, the number of clock readings and the log of provider
      requests;
    - the theorems. *)

From stdpp Require Import base numbers list strings sorting gmap.
From Stdlib Require Import ZArith Lia.

Set Default Proof Using "Type".

(** ** Results and exceptions *)

(** The exceptions that can leave the class.  [ProviderError] stands for
    whatever the provider raises (network failure, service error); the class
    has no [try], so it never looks inside. *)
Inductive exn : Type :=
  | KeyError (what : string)
  | ValueError (what : string)
  | OverflowError
  | ProviderError (kind msg : string).

Inductive outcome (A : Type) : Type :=
  | Ok (a : A)
  | Raise (e : exn).
Arguments Ok {A} a.
Arguments Raise {A} e.

Definition obind {A B} (x : outcome A) (f : A → outcome B) : outcome B :=
  match x with
  | Ok a => f a
  | Raise e => Raise e
  end.

(** ** Python's datetime, as far as [_get_default_dates] uses it *)

Module PyDatetime.
Open Scope Z_scope.

Definition _MAXORDINAL : Z := 3652059.

Definition _DAYS_IN_MONTH : list Z :=
  [-1; 31; 28; 31; 30; 31; 30; 31; 31; 30; 31; 30; 31].

Definition _DAYS_BEFORE_MONTH : list Z :=
  [-1; 0; 31; 59; 90; 120; 151; 181; 212; 243; 273; 304; 334].

Definition table (t : list Z) (i : Z) : Z := nth (Z.to_nat i) t 0.

Definition _is_leap (year : Z) : bool :=
  (year mod 4 =? 0) && (negb (year mod 100 =? 0) || (year mod 400 =? 0)).

Definition _days_before_year (year : Z) : Z :=
  let y := year - 1 in
  y * 365 + y / 4 - y / 100 + y / 400.

Definition _days_in_month (year month : Z) : Z :=
  if (month =? 2) && _is_leap year then 29 else table _DAYS_IN_MONTH month.

Definition _days_before_month (year month : Z) : Z :=
  table _DAYS_BEFORE_MONTH month
  + (if (2 <? month) && _is_leap year then 1 else 0).

Definition _ymd2ord (year month day : Z) : Z :=
  _days_before_year year + _days_before_month year month + day.

Definition _DI400Y : Z := 146097.
Definition _DI100Y : Z := 36524.
Definition _DI4Y : Z := 1461.

Definition _ord2ymd (n : Z) : Z * Z * Z :=
  let n := n - 1 in
  let n400 := n / _DI400Y in
  let n := n mod _DI400Y in
  let year := n400 * 400 + 1 in
  let n100 := n / _DI100Y in
  let n := n mod _DI100Y in
  let n4 := n / _DI4Y in
  let n := n mod _DI4Y in
  let n1 := n / 365 in
  let n := n mod 365 in
  let year := year + (n100 * 100 + n4 * 4 + n1) in
  if (n1 =? 4) || (n100 =? 4) then (year - 1, 12, 31)
  else
    let leapyear := (n1 =? 3) && (negb (n4 =? 24) || (n100 =? 3)) in
    let month := Z.shiftr (n + 50) 5 in
    let preceding :=
      table _DAYS_BEFORE_MONTH month
      + (if (2 <? month) && leapyear then 1 else 0) in
    if n <? preceding then
      let month := month - 1 in
      let preceding :=
        preceding
        - (table _DAYS_IN_MONTH month
           + (if (month =? 2) && leapyear then 1 else 0)) in
      (year, month, n - preceding + 1)
    else (year, month, n - preceding + 1).

(** A naive [datetime]: the calendar date and the time of day. *)
Record datetime : Type := mk_datetime {
  year : Z; month : Z; day : Z;
  hour : Z; minute : Z; second : Z; microsecond : Z
}.

Definition toordinal (t : datetime) : Z := _ymd2ord (year t) (month t) (day t).

(** The invariant every [datetime] object satisfies on construction. *)
Definition valid_date (t : datetime) : Prop :=
  1 ≤ year t ≤ 9999 ∧ 1 ≤ month t ≤ 12
  ∧ 1 ≤ day t ≤ _days_in_month (year t) (month t).

(** [t - timedelta(days=d)]: [datetime.__add__] builds a delta from
    [toordinal] and the time of day, subtracts whole days (the time of day is
    untouched), and rebuilds the date with [fromordinal]; a day number outside
    [1 .. _MAXORDINAL] raises. *)
Definition sub_days (t : datetime) (d : Z) : outcome datetime :=
  let days := toordinal t - d in
  if (0 <? days) && (days <=? _MAXORDINAL) then
    let '(y, m, dd) := _ord2ymd days in
    Ok (mk_datetime y m dd (hour t) (minute t) (second t) (microsecond t))
  else Raise OverflowError.

Definition digit (z : Z) : Ascii.ascii :=
  Ascii.ascii_of_nat (48 + Z.to_nat (z mod 10)).

(** The [w] low decimal digits of [z], most significant first. *)
Fixpoint zpad (w : nat) (z : Z) : string :=
  match w with
  | O => EmptyString
  | S w' => (zpad w' (z / 10) +:+ String (digit z) EmptyString)%string
  end.

(** [t.strftime('%Y-%m-%d')]. *)
Definition strftime_Ymd (t : datetime) : string :=
  (zpad 4 (year t) +:+ "-" +:+ zpad 2 (month t) +:+ "-" +:+ zpad 2 (day t))%string.

End PyDatetime.

(** ** pandas, as far as the class uses it

    A frame is kept row by row: the name of its index, the labels of its
    columns, and for every row the index label and the cells.  Cells are
    opaque to the class (it never computes on prices or volumes), so one
    integer payload stands for a number; [Stamp] is the day of a bar and
    [NA] pandas' missing value (NaN, NaT).  Column dtypes are not kept. *)

Module Pandas.

Inductive cell : Type :=
  | NA
  | Num (x : Z)
  | Stamp (t : Z).

#[global] Instance cell_eq_dec : EqDecision cell.
Proof. solve_decision. Defined.

Definition row : Type := cell * list cell.

Record DataFrame : Type := mk_frame {
  index_name : option string;
  columns : list string;
  rows : list row
}.

Definition labels (df : DataFrame) : list cell := map fst (rows df).

(** Frames are rectangular. *)
Definition wf (df : DataFrame) : Prop :=
  Forall (λ r : row, length (snd r) = length (columns df)) (rows df).

(** Position of the first column called [name]. *)
Fixpoint index_of (name : string) (cols : list string) : option nat :=
  match cols with
  | [] => None
  | c :: cols' =>
      if decide (c = name) then Some O else S <$> index_of name cols'
  end.

(** Positions of all the columns called [name], as [Index.get_indexer_for]. *)
Fixpoint positions (name : string) (cols : list string) : list nat :=
  match cols with
  | [] => []
  | c :: cols' =>
      let rest := map S (positions name cols') in
      if decide (c = name) then O :: rest else rest
  end.

Definition take {A} (d : A) (idx : list nat) (l : list A) : list A :=
  map (λ i, nth i l d) idx.

Definition drop_at {A} (i : nat) (l : list A) : list A :=
  firstn i l ++ skipn (S i) l.

(** [df[names]] with a list of labels: every label must be present
    ([KeyError] otherwise); a label carried by several columns selects all of
    them.  The index is kept. *)
Definition getitem (names : list string) (df : DataFrame) : outcome DataFrame :=
  match list_find (λ n, n ∉ columns df) names with
  | Some (_, n) => Raise (KeyError n)
  | None =>
      let idx := flat_map (λ n, positions n (columns df)) names in
      Ok {| index_name := index_name df;
            columns := take EmptyString idx (columns df);
            rows := map (λ r : row, (fst r, take NA idx (snd r))) (rows df) |}
  end.

(** A fresh [RangeIndex]: labels 0, 1, 2, ... *)
Definition range_index (rs : list (list cell)) : list row :=
  imap (λ i cells, (Num (Z.of_nat i), cells)) rs.

(** [df.reset_index()]: the index becomes the first column, under the name of
    the index, or ["index"] (["level_0"] when ["index"] is taken) for an
    unnamed one; inserting a label that is already a column raises
    [ValueError]. *)
Definition reset_index (df : DataFrame) : outcome DataFrame :=
  let name :=
    match index_name df with
    | Some n => n
    | None => if decide ("index" ∈ columns df) then "level_0" else "index"
    end in
  if decide (name ∈ columns df)
  then Raise (ValueError ("cannot insert " +:+ name +:+ ", already exists"))
  else Ok {| index_name := None;
             columns := name :: columns df;
             rows := range_index (map (λ r : row, fst r :: snd r) (rows df)) |}.

(** [df.columns = names]. *)
Definition set_columns (names : list string) (df : DataFrame) : outcome DataFrame :=
  if decide (length names = length (columns df))
  then Ok {| index_name := index_name df; columns := names; rows := rows df |}
  else Raise (ValueError "Length mismatch").

(** The order [sort_values] and [merge] put keys in: ascending, missing
    values last.  Keys of one column have one kind (the dates of a
    [DatetimeIndex]); across kinds the order below is a convention of the
    model. *)
Definition cell_leb (a b : cell) : bool :=
  match a, b with
  | _, NA => true
  | NA, _ => false
  | Num x, Num y => (x <=? y)%Z
  | Stamp x, Stamp y => (x <=? y)%Z
  | Num _, Stamp _ => true
  | Stamp _, Num _ => false
  end.

Definition cell_le (a b : cell) : Prop := cell_leb a b = true.

#[global] Instance cell_le_dec : RelDecision cell_le :=
  λ a b, decide (cell_leb a b = true).

Definition key_of (i : nat) (cells : list cell) : cell := nth i cells NA.

Definition key_le (i : nat) (r1 r2 : row) : Prop :=
  cell_le (key_of i (snd r1)) (key_of i (snd r2)).

#[global] Instance key_le_dec i : RelDecision (key_le i) :=
  λ r1 r2, decide (cell_leb (key_of i (snd r1)) (key_of i (snd r2)) = true).

(** The keys of an outer join: the distinct keys of both sides, sorted. *)
Definition join_keys (lk rk : list cell) : list cell :=
  merge_sort cell_le (remove_dups (lk ++ rk)).

(** The rows of [merge(left, right, on=key, how='outer')]: key by key, every
    left row with that key paired with every right row with that key (left
    rows outermost); a key found on one side only gives that side's rows with
    [NA] in the other side's columns.  The key stays where the left frame has
    it; the right frame's key column is dropped. *)
Definition join_rows (i j nl nr : nat) (L R : list (list cell)) : list (list cell) :=
  flat_map (λ k,
    let ls := filter (λ l, key_of i l = k) L in
    let rs := filter (λ r, key_of j r = k) R in
    match ls, rs with
    | [], _ => map (λ r, (<[i := k]> (replicate nl NA)) ++ drop_at j r) rs
    | _, [] => map (λ l, l ++ replicate (nr - 1) NA) ls
    | _, _ => flat_map (λ l, map (λ r, l ++ drop_at j r) rs) ls
    end) (join_keys (map (key_of i) L) (map (key_of j) R)).

(** Labels of the two sides that collide (other than the key) get the default
    suffixes. *)
Definition suffixed (on sfx : string) (other cols : list string) : list string :=
  map (λ c, if decide (c ≠ on ∧ c ∈ other) then c +:+ sfx else c) cols.

(** [pd.merge(left, right, on=key, how='outer')].  Both frames need the key
    column.  The result has a fresh [RangeIndex]. *)
Definition merge_outer (on : string) (left right : DataFrame) : outcome DataFrame :=
  match index_of on (columns left), index_of on (columns right) with
  | Some i, Some j =>
      Ok {| index_name := None;
            columns := suffixed on "_x" (columns right) (columns left)
                       ++ drop_at j (suffixed on "_y" (columns left) (columns right));
            rows := range_index
                      (join_rows i j (length (columns left)) (length (columns right))
                         (map snd (rows left)) (map snd (rows right))) |}
  | _, _ => Raise (KeyError on)
  end.

(** [df.sort_values(by)]: rows in ascending order of the column, missing
    values last, each row keeping its index label.  The order of rows with
    equal keys is not fixed by pandas' default sort; the model uses a merge
    sort. *)
Definition sort_values (by_ : string) (df : DataFrame) : outcome DataFrame :=
  match index_of by_ (columns df) with
  | Some i =>
      Ok {| index_name := index_name df;
            columns := columns df;
            rows := merge_sort (key_le i) (rows df) |}
  | None => Raise (KeyError by_)
  end.

(** [df.set_index(key)]: the column becomes the index and leaves the
    columns. *)
Definition set_index (key : string) (df : DataFrame) : outcome DataFrame :=
  match index_of key (columns df) with
  | Some i =>
      Ok {| index_name := Some key;
            columns := drop_at i (columns df);
            rows := map (λ r : row, (key_of i (snd r), drop_at i (snd r))) (rows df) |}
  | None => Raise (KeyError key)
  end.

End Pandas.

(** ** The class

    Methods run in a monad of state and exceptions.  The state is what a call
    can observe or change: the object, how often the clock was read and which
    requests reached the provider.  The surroundings the class has no hand in
    are an [Env]: what the clock shows at each reading, and what the provider
    answers to each request (the answer may depend on when it is asked, so it
    also takes the number of requests made before). *)

Module Analyzer.
Import PyDatetime Pandas.

(** [yf.Ticker]: the handle the provider gives for a symbol. *)
Record Ticker : Type := mk_Ticker { ticker : string }.

Record StockDataAnalyzer : Type := mk_analyzer {
  ticker_symbol : string;
  _ticker : Ticker
}.

Definition __init__ (symbol : string) : StockDataAnalyzer :=
  {| ticker_symbol := symbol; _ticker := mk_Ticker symbol |}.

(** One call of [Ticker.history(start=..., end=...)]. *)
Record Request : Type := mk_request {
  req_ticker : string;
  req_start : string;
  req_end : string
}.

Record Env : Type := mk_env {
  clock : nat → datetime;
  history : Request → nat → outcome DataFrame
}.

Record World : Type := mk_world {
  self : StockDataAnalyzer;
  ticks : nat;
  requests : list Request
}.

Definition M (A : Type) : Type := World → outcome A * World.

#[global] Instance M_ret : MRet M := λ A a w, (Ok a, w).

#[global] Instance M_bind : MBind M := λ A B f m w,
  match m w with
  | (Ok a, w') => f a w'
  | (Raise e, w') => (Raise e, w')
  end.

(** A pandas or datetime operation inside a method. *)
Definition lift {A} (x : outcome A) : M A := λ w, (x, w).

(** [datetime.now()] *)
Definition now (env : Env) : M datetime := λ w,
  (Ok (clock env (ticks w)),
   {| self := self w; ticks := S (ticks w); requests := requests w |}).

(** [self._ticker] *)
Definition get_ticker : M Ticker := λ w, (Ok (_ticker (self w)), w).

(** [tk.history(start=s, end=e)] *)
Definition call_history (env : Env) (tk : Ticker) (s e : string) : M DataFrame := λ w,
  let rq := {| req_ticker := ticker tk; req_start := s; req_end := e |} in
  (history env rq (length (requests w)),
   {| self := self w; ticks := ticks w; requests := requests w ++ [rq] |}).

(** Python's [x or d] for an optional string: [None] and the empty string are
    falsy. *)
Definition py_or (x : option string) (d : M string) : M string :=
  match x with
  | Some s => if decide (s = EmptyString) then d else mret s
  | None => d
  end.

(** [d[k]] on a dict *)
Definition dict_get (d : gmap string string) (k : string) : M string :=
  match d !! k with
  | Some v => mret v
  | None => lift (Raise (KeyError k))
  end.

Definition _get_default_dates (env : Env) : M (gmap string string) :=
  t1 ← now env;
  let end_date := strftime_Ymd t1 in
  t2 ← now env;
  t3 ← lift (sub_days t2 365);
  let start_date := strftime_Ymd t3 in
  mret (<["start_date" := start_date]> (<["end_date" := end_date]> ∅)).

Definition get_stock_data (env : Env) (start_date end_date : option string) : M DataFrame :=
  dates ← _get_default_dates env;
  start_date ← py_or start_date (dict_get dates "start_date");
  end_date ← py_or end_date (dict_get dates "end_date");
  tk ← get_ticker;
  df ← call_history env tk start_date end_date;
  lift (getitem ["Open"; "High"; "Low"; "Close"] df).

Definition get_daily_volume (env : Env) (start_date end_date : option string) : M DataFrame :=
  dates ← _get_default_dates env;
  start_date ← py_or start_date (dict_get dates "start_date");
  end_date ← py_or end_date (dict_get dates "end_date");
  tk ← get_ticker;
  hist ← call_history env tk start_date end_date;
  sel ← lift (getitem ["Volume"] hist);
  volume_data ← lift (reset_index sel);
  lift (set_columns ["Date"; "Volume"] volume_data).

Definition get_combined_data (env : Env) (start_date end_date : option string) : M DataFrame :=
  price ← get_stock_data env start_date end_date;
  price_data ← lift (reset_index price);
  volume_data ← get_daily_volume env start_date end_date;
  merged_data ← lift (merge_outer "Date" price_data volume_data);
  sorted ← lift (sort_values "Date" merged_data);
  lift (set_index "Date" sorted).

End Analyzer.

Import PyDatetime Pandas Analyzer.

(** ** Vocabulary of the statements *)

(** What the state looks like after the two clock readings of
    [_get_default_dates] and after a request. *)
Definition ticked (w : World) : World :=
  {| self := self w; ticks := S (S (ticks w)); requests := requests w |}.

Definition asked (rq : Request) (w : World) : World :=
  {| self := self w; ticks := ticks w; requests := requests w ++ [rq] |}.

(** The calendar day 365 days before [t], at the same time of day. *)
Definition year_before (t : datetime) : datetime :=
  let '(y, m, d) := _ord2ymd (toordinal t - 365) in
  mk_datetime y m d (hour t) (minute t) (second t) (microsecond t).

Definition default_start (env : Env) (w : World) : string :=
  strftime_Ymd (year_before (clock env (S (ticks w)))).

Definition default_end (env : Env) (w : World) : string :=
  strftime_Ymd (clock env (ticks w)).

(** The value [x or d] settles on. *)
Definition resolved (x : option string) (d : string) : string :=
  match x with
  | Some s => if decide (s = EmptyString) then d else s
  | None => d
  end.

Definition request_of (env : Env) (start_date end_date : option string) (w : World) : Request :=
  {| req_ticker := ticker (_ticker (self w));
     req_start := resolved start_date (default_start env w);
     req_end := resolved end_date (default_end env w) |}.

(** The clock shows real dates, past the first year of the calendar (a
    reading in year 1 makes [now - timedelta(days=365)] overflow). *)
Definition clock_ok (env : Env) : Prop :=
  ∀ k, valid_date (clock env k) ∧ 2 ≤ year (clock env k).

(** The pandas steps of the three methods, without the state. *)
Definition prices_of (df : DataFrame) : outcome DataFrame :=
  getitem ["Open"; "High"; "Low"; "Close"] df.

Definition volume_of (hist : DataFrame) : outcome DataFrame :=
  obind (getitem ["Volume"] hist) (λ sel,
  obind (reset_index sel) (set_columns ["Date"; "Volume"])).

Definition join_on_date (price_data volume_data : DataFrame) : outcome DataFrame :=
  obind (merge_outer "Date" price_data volume_data) (λ merged_data,
  obind (sort_values "Date" merged_data) (set_index "Date")).

(** A computation that leaves the object as it found it, whether it returns
    or raises. *)
Definition keeps_self {A} (m : M A) : Prop :=
  ∀ w, self (snd (m w)) = self w.

(** The cell of a row under a column label (the first column of that name),
    and a whole column. *)
Definition cell_at (df : DataFrame) (name : string) (r : row) : cell :=
  match index_of name (columns df) with
  | Some i => nth i (snd r) NA
  | None => NA
  end.

Definition column (name : string) (df : DataFrame) : list cell :=
  map (cell_at df name) (rows df).

(** Modelled from the spec: the provider (yfinance, outside this repository)
    hands back daily bars as a frame indexed by the date, with distinct column
    labels, among them the four prices and the volume (section 6: "at least
    date, open, high, low, close, volume"). *)
Definition daily_bars (R : DataFrame) : Prop :=
  index_name R = Some "Date"
  ∧ NoDup (columns R)
  ∧ Forall (λ c, c ∈ columns R) ["Open"; "High"; "Low"; "Close"; "Volume"].

(** The frame of [get_daily_volume] has a row for the date [d], with the
    volume [v]. *)
Definition volume_on (V : DataFrame) (d v : cell) : Prop :=
  ∃ k, (k, [d; v]) ∈ rows V.

(** The same month and day one year before [t], and whether a 29 February
    lies between that day and [t]. *)
Definition same_day_last_year (t : datetime) : datetime :=
  mk_datetime (year t - 1) (month t) (day t)
    (hour t) (minute t) (second t) (microsecond t).

Definition feb29_between (t : datetime) : bool :=
  if (2 <? month t)%Z then _is_leap (year t) else _is_leap (year t - 1).

(** How often a cell occurs in a list, and how many rows an outer join has
    for a key that occurs [m] times on the left and [n] times on the right. *)
Definition occurrences (d : cell) (l : list cell) : nat :=
  length (filter (λ x, x = d) l).

Definition join_count (m n : nat) : nat :=
  match m, n with
  | O, _ => n
  | _, O => m
  | _, _ => m * n
  end.

(** The rows [join_rows] makes for one key. *)
Definition join_block (i j nl nr : nat) (L R : list (list cell)) (k : cell) :
    list (list cell) :=
  let ls := filter (λ l, key_of i l = k) L in
  let rs := filter (λ r, key_of j r = k) R in
  match ls, rs with
  | [], _ => map (λ r, (<[i := k]> (replicate nl NA)) ++ drop_at j r) rs
  | _, [] => map (λ l, l ++ replicate (nr - 1) NA) ls
  | _, _ => flat_map (λ l, map (λ r, l ++ drop_at j r) rs) ls
  end.

(** The five cells of a bar that the class keeps. *)
Definition five_fields (R : DataFrame) (r : row) : row :=
  (fst r, [cell_at R "Open" r; cell_at R "High" r; cell_at R "Low" r;
           cell_at R "Close" r; cell_at R "Volume" r]).

(** Rows in the order of their index labels. *)
Definition label_le (r1 r2 : row) : Prop := cell_le (fst r1) (fst r2).

(** The last steps of [_ord2ymd]: month and day from the day [n] of the year
    (counted from 0). *)
Definition month_day (leapyear : bool) (n : Z) : Z * Z :=
  let month := Z.shiftr (n + 50) 5 in
  let preceding :=
    (table _DAYS_BEFORE_MONTH month
     + (if (2 <? month)%Z && leapyear then 1 else 0))%Z in
  if (n <? preceding)%Z then
    let month := (month - 1)%Z in
    let preceding :=
      (preceding
       - (table _DAYS_IN_MONTH month
          + (if (month =? 2)%Z && leapyear then 1 else 0)))%Z in
    (month, (n - preceding + 1)%Z)
  else (month, (n - preceding + 1)%Z).

Definition month_day_ok (leapyear : bool) (n : Z) : bool :=
  let '(m, d) := month_day leapyear n in
  (1 <=? m)%Z && (m <=? 12)%Z && (1 <=? d)%Z
  && (d <=? (if (m =? 2)%Z && leapyear then 29 else table _DAYS_IN_MONTH m))%Z
  && (table _DAYS_BEFORE_MONTH m
      + (if (2 <? m)%Z && leapyear then 1 else 0) + d =? n + 1)%Z.

(** ** Sample surroundings

    A provider that knows one ticker and answers with the bars it has, and a
    clock that stands still. *)

Module Sample.

Definition provider_columns : list string :=
  ["Open"; "High"; "Low"; "Close"; "Volume"; "Dividends"; "Stock Splits"].

Definition bar (d o h l c v : Z) : row :=
  (Stamp d, [Num o; Num h; Num l; Num c; Num v; Num 0; Num 0]).

Definition bars (rs : list row) : DataFrame :=
  {| index_name := Some "Date"; columns := provider_columns; rows := rs |}.

(** 2024-05-01 is day 739007. *)
Definition may : list row :=
  [bar 739007 182 185 180 184 1000; bar 739008 184 186 181 183 1200;
   bar 739009 183 190 183 189 900].

Definition noon (y m d : Z) : datetime := mk_datetime y m d 12 0 0 0.

Definition fixed_clock (t : datetime) : nat → datetime := λ _, t.

Definition env0 : Env :=
  {| clock := fixed_clock (noon 2024 12 29);
     history := λ rq _,
       if decide (req_ticker rq = "TSLA") then Ok (bars may) else Ok (bars []) |}.

(** A provider whose price answer and volume answer cover different days:
    the first answer has days 1, 2, 3, the second days 2, 3, 4. *)
Definition env_skew : Env :=
  {| clock := fixed_clock (noon 2024 12 29);
     history := λ rq n,
       match n with
       | O => Ok (bars [bar 1 10 11 9 10 100; bar 2 20 21 19 20 200; bar 3 30 31 29 30 300])
       | _ => Ok (bars [bar 2 20 21 19 20 200; bar 3 30 31 29 30 300; bar 4 40 41 39 40 400])
       end |}.

(** A provider that answers once and is unreachable afterwards. *)
Definition env_flaky : Env :=
  {| clock := fixed_clock (noon 2024 12 29);
     history := λ rq n,
       match n with
       | O => Ok (bars may)
       | _ => Raise (ProviderError "ConnectionError" "timed out")
       end |}.

(** A provider that has no bars for anybody. *)
Definition env_empty : Env :=
  {| clock := fixed_clock (noon 2024 12 29);
     history := λ _ _, Ok (bars []) |}.

Definition w0 (symbol : string) : World :=
  {| self := __init__ symbol; ticks := 0; requests := [] |}.

End Sample.

(** * Properties *)

(** ** Running the monad *)

Section Running.
Context {A B : Type}.

Lemma bind_run (m : M A) (f : A → M B) (w : World) :
  (m ≫= f) w =
    match m w with
    | (Ok a, w') => f a w'
    | (Raise e, w') => (Raise e, w')
    end.
Proof. reflexivity. Qed.

Lemma bind_ok (m : M A) (f : A → M B) w a w' :
  m w = (Ok a, w') → (m ≫= f) w = f a w'.
Proof. intros E. rewrite bind_run, E. reflexivity. Qed.

Lemma bind_raise (m : M A) (f : A → M B) w e w' :
  m w = (Raise e, w') → (m ≫= f) w = (Raise e, w').
Proof. intros E. rewrite bind_run, E. reflexivity. Qed.

Lemma bind_lift (x : outcome A) (f : A → M B) w :
  (lift x ≫= f) w =
    match x with
    | Ok a => f a w
    | Raise e => (Raise e, w)
    end.
Proof. rewrite bind_run. unfold lift. destruct x; reflexivity. Qed.
End Running.


(** ** The calendar *)

Section Calendar.
Open Scope Z_scope.

Lemma month_day_ok_all (leapyear : bool) (n : Z) :
  0 ≤ n < 365 + (if leapyear then 1 else 0) →
  month_day_ok leapyear n = true.
Proof.
  intros Hn.
  assert (Hall : forallb (λ k, month_day_ok leapyear (Z.of_nat k)) (seq 0 (if leapyear then 366 else 365)) = true)
    by (destruct leapyear; vm_compute; reflexivity).
  rewrite forallb_forall in Hall.
  specialize (Hall (Z.to_nat n)).
  rewrite Z2Nat.id in Hall by lia.
  apply Hall, in_seq. destruct leapyear; lia.
Qed.

Lemma days_before_year_split (q a b c : Z) :
  0 ≤ a < 4 → 0 ≤ b < 25 → 0 ≤ c < 4 →
  _days_before_year (q * 400 + 1 + (a * 100 + b * 4 + c))
  = 146097 * q + 36524 * a + 1461 * b + 365 * c.
Proof. intros. unfold _days_before_year. Z.div_mod_to_equations. lia. Qed.

Lemma is_leap_split (q a b c : Z) :
  0 ≤ a < 4 → 0 ≤ b < 25 → 0 ≤ c < 4 →
  _is_leap (q * 400 + 1 + (a * 100 + b * 4 + c))
  = (c =? 3) && (negb (b =? 24) || (a =? 3)).
Proof.
  intros. unfold _is_leap.
  repeat match goal with
         | |- context [?x =? ?y] => destruct (Z.eqb_spec x y)
         end; simpl; try reflexivity; exfalso; Z.div_mod_to_equations; lia.
Qed.

Lemma ord2ymd_month_day (n : Z) :
  _ord2ymd n =
    let r := (n - 1) mod _DI400Y in
    let a := r / _DI100Y in
    let b := r mod _DI100Y / _DI4Y in
    let r3 := r mod _DI100Y mod _DI4Y in
    let c := r3 / 365 in
    let y := (n - 1) / _DI400Y * 400 + 1 + (a * 100 + b * 4 + c) in
    if (c =? 4) || (a =? 4) then (y - 1, 12, 31)
    else
      let md := month_day ((c =? 3) && (negb (b =? 24) || (a =? 3))) (r3 mod 365) in
      (y, fst md, snd md).
Proof.
  unfold _ord2ymd, month_day. cbv zeta.
  repeat match goal with
         | |- context [if ?t then _ else _] => destruct t
         end; reflexivity.
Qed.

Lemma ord2ymd_spec (n : Z) :
  1 ≤ n →
  ∃ y m d, _ord2ymd n = (y, m, d) ∧ _ymd2ord y m d = n
           ∧ 1 ≤ m ≤ 12 ∧ 1 ≤ d ≤ _days_in_month y m
           ∧ (n ≤ _MAXORDINAL → 1 ≤ y ≤ 9999).
Proof.
  intros Hn. rewrite ord2ymd_month_day. unfold _DI400Y, _DI100Y, _DI4Y, _MAXORDINAL.
  pose proof (Z.div_mod (n - 1) 146097 ltac:(lia)) as E1.
  pose proof (Z.mod_pos_bound (n - 1) 146097 ltac:(lia)) as B1.
  set (q := (n - 1) / 146097) in *. set (r := (n - 1) mod 146097) in *.
  pose proof (Z.div_mod r 36524 ltac:(lia)) as E2.
  pose proof (Z.mod_pos_bound r 36524 ltac:(lia)) as B2.
  set (a := r / 36524) in *. set (r2 := r mod 36524) in *.
  pose proof (Z.div_mod r2 1461 ltac:(lia)) as E3.
  pose proof (Z.mod_pos_bound r2 1461 ltac:(lia)) as B3.
  set (b := r2 / 1461) in *. set (r3 := r2 mod 1461) in *.
  pose proof (Z.div_mod r3 365 ltac:(lia)) as E4.
  pose proof (Z.mod_pos_bound r3 365 ltac:(lia)) as B4.
  set (c := r3 / 365) in *. set (r4 := r3 mod 365) in *.
  cbv zeta.
  assert (0 ≤ q) by lia. assert (0 ≤ a ≤ 4) by lia.
  assert (0 ≤ b ≤ 24) by lia. assert (0 ≤ c ≤ 4) by lia.
  destruct (Z.eqb_spec c 4) as [Hc|Hc]; [|destruct (Z.eqb_spec a 4) as [Ha|Ha]]; simpl orb; cbv iota.
  - (* last day of a leap year closing a 4-year cycle *)
    assert (b ≤ 23) by lia.
    exists (q * 400 + 1 + (a * 100 + b * 4 + 3)), 12, 31.
    split; [f_equal; f_equal; lia|].
    assert (a ≤ 3) by lia.
    unfold _ymd2ord, _days_before_month, _days_in_month.
    rewrite days_before_year_split, is_leap_split by lia.
    replace (3 =? 3) with true by reflexivity.
    replace (b =? 24) with false by (symmetry; apply Z.eqb_neq; lia).
    change (table _DAYS_BEFORE_MONTH 12) with 334.
    change (table _DAYS_IN_MONTH 12) with 31.
    simpl. repeat split; lia.
  - (* last day of a 400-year cycle *)
    exists (q * 400 + 1 + (3 * 100 + 24 * 4 + 3)), 12, 31.
    split; [f_equal; f_equal; lia|].
    unfold _ymd2ord, _days_before_month, _days_in_month.
    rewrite days_before_year_split, is_leap_split by lia.
    change (table _DAYS_BEFORE_MONTH 12) with 334.
    change (table _DAYS_IN_MONTH 12) with 31.
    simpl. repeat split; lia.
  - set (leap := (c =? 3) && (negb (b =? 24) || (a =? 3))).
    pose proof (month_day_ok_all leap r4 ltac:(destruct leap; lia)) as Hok.
    unfold month_day_ok in Hok.
    destruct (month_day leap r4) as [m d]. simpl fst; simpl snd.
    exists (q * 400 + 1 + (a * 100 + b * 4 + c)), m, d.
    split; [reflexivity|].
    unfold _ymd2ord, _days_before_month, _days_in_month.
    rewrite days_before_year_split, is_leap_split by lia. fold leap.
    repeat (apply andb_prop in Hok as [Hok ?]).
    repeat split; lia.
Qed.

Lemma toordinal_bounds (t : datetime) :
  valid_date t →
  1 ≤ toordinal t ≤ _MAXORDINAL ∧ (2 ≤ year t → 365 < toordinal t).
Proof.
  intros (Hy & Hm & Hd).
  unfold toordinal, _ymd2ord, _days_before_month, _days_before_year,
    _days_in_month, _is_leap, _MAXORDINAL in *.
  assert (Hcases : month t = 1 ∨ month t = 2 ∨ month t = 3 ∨ month t = 4
                   ∨ month t = 5 ∨ month t = 6 ∨ month t = 7 ∨ month t = 8
                   ∨ month t = 9 ∨ month t = 10 ∨ month t = 11 ∨ month t = 12)
    by lia.
  repeat (destruct Hcases as [Hcases|Hcases]);
    rewrite Hcases in *; clear Hcases;
    repeat match goal with
           | H : context [table ?tb ?k] |- _ =>
               let v := eval vm_compute in (table tb k) in
               change (table tb k) with v in H
           | |- context [table ?tb ?k] =>
               let v := eval vm_compute in (table tb k) in
               change (table tb k) with v
           end;
    repeat match goal with
           | H : context [?x mod ?k =? ?y] |- _ => destruct (Z.eqb_spec (x mod k) y)
           | |- context [?x mod ?k =? ?y] => destruct (Z.eqb_spec (x mod k) y)
           end;
    cbn in Hd |- *; Z.div_mod_to_equations; lia.
Qed.

(** [t - timedelta(days=365)] is the day 365 days before, at the same time
    of day. *)
Lemma sub_days_365 (t : datetime) :
  valid_date t → 2 ≤ year t →
  sub_days t 365 = Ok (year_before t)
  ∧ toordinal (year_before t) = toordinal t - 365
  ∧ valid_date (year_before t)
  ∧ (hour (year_before t), minute (year_before t),
     second (year_before t), microsecond (year_before t))
    = (hour t, minute t, second t, microsecond t).
Proof.
  intros Hv Hy. destruct (toordinal_bounds t Hv) as [Hb Hlo].
  specialize (Hlo Hy).
  destruct (ord2ymd_spec (toordinal t - 365) ltac:(lia))
    as (y & m & d & E & Hord & Hm & Hd & Hyr).
  unfold sub_days, year_before. rewrite E.
  replace (0 <? toordinal t - 365) with true by (symmetry; apply Z.ltb_lt; lia).
  replace (toordinal t - 365 <=? _MAXORDINAL) with true
    by (symmetry; apply Z.leb_le; lia).
  repeat split; try done; simpl; lia.
Qed.

Lemma digit_mod (a b : Z) : digit a = digit b → a mod 10 = b mod 10.
Proof.
  unfold digit. intros H. apply (f_equal Ascii.nat_of_ascii) in H.
  pose proof (Z.mod_pos_bound a 10 ltac:(lia)).
  pose proof (Z.mod_pos_bound b 10 ltac:(lia)).
  rewrite !Ascii.nat_ascii_embedding in H by lia. lia.
Qed.

(** The text of [strftime('%Y-%m-%d')] tells the date: two dates with four
    digit years and two digit months and days that print alike are the same
    day. *)
Lemma strftime_Ymd_inj (t1 t2 : datetime) :
  0 ≤ year t1 ≤ 9999 → 0 ≤ month t1 ≤ 99 → 0 ≤ day t1 ≤ 99 →
  0 ≤ year t2 ≤ 9999 → 0 ≤ month t2 ≤ 99 → 0 ≤ day t2 ≤ 99 →
  strftime_Ymd t1 = strftime_Ymd t2 →
  year t1 = year t2 ∧ month t1 = month t2 ∧ day t1 = day t2.
Proof.
  intros Hy1 Hm1 Hd1 Hy2 Hm2 Hd2 H.
  unfold strftime_Ymd, zpad in H. cbn [String.append] in H.
  injection H as Hy3 Hy2' Hy1' Hy0 Hm1' Hm0 Hd1' Hd0.
  apply (f_equal (λ c, String c EmptyString)) in Hy3.
  repeat match goal with
         | H : String ?a _ = String ?b _ |- _ => injection H as H
         | H : digit _ = digit _ |- _ => apply digit_mod in H
         end.
  Z.div_mod_to_equations. lia.
Qed.
End Calendar.

(** ** The methods, step by step *)

Section Methods.
Variable env : Env.
Hypothesis Hclock : clock_ok env.

Lemma get_default_dates_run (w : World) :
  _get_default_dates env w =
    (Ok (<["start_date" := default_start env w]>
           (<["end_date" := default_end env w]> ∅)), ticked w).
Proof using Hclock.
  destruct (Hclock (S (ticks w))) as [Hv Hy].
  destruct (sub_days_365 _ Hv Hy) as (Hsub & _).
  unfold _get_default_dates. rewrite bind_run. cbn [now].
  rewrite bind_run. cbn [now ticks self requests].
  rewrite bind_lift, Hsub. reflexivity.
Qed.

Lemma py_or_start_run (x : option string) (s e : string) (w : World) :
  py_or x (dict_get (<["start_date" := s]> (<["end_date" := e]> ∅)) "start_date") w
  = (Ok (resolved x s), w).
Proof.
  unfold py_or, resolved, dict_get. rewrite lookup_insert_eq.
  destruct x as [x|]; [destruct (decide (x = EmptyString))|]; reflexivity.
Qed.

Lemma py_or_end_run (x : option string) (s e : string) (w : World) :
  py_or x (dict_get (<["start_date" := s]> (<["end_date" := e]> ∅)) "end_date") w
  = (Ok (resolved x e), w).
Proof.
  unfold py_or, resolved, dict_get.
  rewrite lookup_insert_ne by done. rewrite lookup_insert_eq.
  destruct x as [x|]; [destruct (decide (x = EmptyString))|]; reflexivity.
Qed.

(** Both fetches: two clock readings, one request, then pandas. *)
Lemma fetch_run (start_date end_date : option string)
    (k : DataFrame → M DataFrame) (w : World) :
  (dates ← _get_default_dates env;
   start_date ← py_or start_date (dict_get dates "start_date");
   end_date ← py_or end_date (dict_get dates "end_date");
   tk ← get_ticker;
   df ← call_history env tk start_date end_date;
   k df) w
  = let rq := request_of env start_date end_date w in
    match history env rq (length (requests w)) with
    | Ok df => k df (asked rq (ticked w))
    | Raise x => (Raise x, asked rq (ticked w))
    end.
Proof using Hclock.
  rewrite (bind_ok _ _ _ _ _ (get_default_dates_run w)).
  rewrite (bind_ok _ _ _ _ _ (py_or_start_run _ _ _ _)).
  rewrite (bind_ok _ _ _ _ _ (py_or_end_run _ _ _ _)).
  rewrite bind_run. cbn [get_ticker]. rewrite bind_run.
  unfold call_history, request_of, asked, ticked. cbn [self ticks requests].
  destruct (history env _ _); reflexivity.
Qed.

Lemma get_stock_data_run (start_date end_date : option string) (w : World) :
  get_stock_data env start_date end_date w
  = let rq := request_of env start_date end_date w in
    (obind (history env rq (length (requests w))) prices_of, asked rq (ticked w)).
Proof using Hclock.
  unfold get_stock_data. rewrite fetch_run. cbv zeta.
  destruct (history env _ _); reflexivity.
Qed.

Lemma get_daily_volume_run (start_date end_date : option string) (w : World) :
  get_daily_volume env start_date end_date w
  = let rq := request_of env start_date end_date w in
    (obind (history env rq (length (requests w))) volume_of, asked rq (ticked w)).
Proof using Hclock.
  unfold get_daily_volume. rewrite fetch_run. cbv zeta.
  destruct (history env _ _) as [hist|]; [|reflexivity].
  rewrite bind_lift. unfold volume_of, obind.
  destruct (getitem _ hist) as [sel|]; [|reflexivity].
  rewrite bind_lift. destruct (reset_index sel); reflexivity.
Qed.
End Methods.

(** [get_combined_data] in terms of its two fetches; no assumption on the
    clock is needed here. *)
Lemma get_combined_data_run env start_date end_date w :
  get_combined_data env start_date end_date w =
    match get_stock_data env start_date end_date w with
    | (Ok price, w1) =>
        match reset_index price with
        | Ok price_data =>
            match get_daily_volume env start_date end_date w1 with
            | (Ok volume_data, w2) => (join_on_date price_data volume_data, w2)
            | (Raise x, w2) => (Raise x, w2)
            end
        | Raise x => (Raise x, w1)
        end
    | (Raise x, w1) => (Raise x, w1)
    end.
Proof.
  unfold get_combined_data. rewrite bind_run.
  destruct (get_stock_data env start_date end_date w) as [[price|x] w1]; [|reflexivity].
  rewrite bind_lift. destruct (reset_index price) as [price_data|x]; [|reflexivity].
  rewrite bind_run.
  destruct (get_daily_volume env start_date end_date w1) as [[volume_data|x] w2];
    [|reflexivity].
  rewrite bind_lift. unfold join_on_date, obind.
  destruct (merge_outer _ _ _) as [m|]; [|reflexivity].
  rewrite bind_lift. destruct (sort_values _ m); reflexivity.
Qed.

(** ** Range resolution *)

Lemma request_of_explicit env s e w :
  s ≠ EmptyString → e ≠ EmptyString →
  request_of env (Some s) (Some e) w = mk_request (ticker (_ticker (self w))) s e.
Proof.
  intros Hs He. unfold request_of, resolved.
  destruct (decide (s = EmptyString)); [done|].
  destruct (decide (e = EmptyString)); [done|]. reflexivity.
Qed.

Lemma py_or_explicit s d w : s ≠ EmptyString → py_or (Some s) d w = (Ok s, w).
Proof. intros Hs. unfold py_or. destruct (decide (s = EmptyString)); done. Qed.

Lemma sample_clock_ok t :
  valid_date t → (2 ≤ year t)%Z → ∀ h, clock_ok (mk_env (Sample.fixed_clock t) h).
Proof. intros Hv Hy h k. split; assumption. Qed.

Ltac sample_clock :=
  apply sample_clock_ok; [repeat split; vm_compute; discriminate | vm_compute; discriminate].

(** C2, as the code has it: two non-empty date strings are used as they are.
    Each [x or default] yields the caller's string, and the request that
    reaches the provider, from [get_stock_data] and from [get_daily_volume],
    carries exactly those two strings. *)
Theorem explicit_range_forwarded env (s e : string) (w : World) :
  clock_ok env → s ≠ EmptyString → e ≠ EmptyString →
  (∀ d, py_or (Some s) d w = (Ok s, w))
  ∧ (∀ d, py_or (Some e) d w = (Ok e, w))
  ∧ requests (snd (get_stock_data env (Some s) (Some e) w))
    = requests w ++ [mk_request (ticker (_ticker (self w))) s e]
  ∧ requests (snd (get_daily_volume env (Some s) (Some e) w))
    = requests w ++ [mk_request (ticker (_ticker (self w))) s e].
Proof.
  intros Hclock Hs He. repeat split.
  - intros d. by apply py_or_explicit.
  - intros d. by apply py_or_explicit.
  - rewrite get_stock_data_run by done. cbn. by rewrite request_of_explicit.
  - rewrite get_daily_volume_run by done. cbn. by rewrite request_of_explicit.
Qed.

Lemma explicit_range_forwarded_witness :
  requests (snd (get_stock_data Sample.env0 (Some "2024-05-01") (Some "2024-12-29")
                   (Sample.w0 "TSLA")))
  = [mk_request "TSLA" "2024-05-01" "2024-12-29"].
Proof.
  pose proof (explicit_range_forwarded Sample.env0 "2024-05-01" "2024-12-29"
                (Sample.w0 "TSLA") ltac:(sample_clock) ltac:(discriminate)
                ltac:(discriminate)) as (_ & _ & H & _).
  exact H.
Defined.

(** C2 as stated fails for the empty string: a caller who supplies [""] as
    start does not see it forwarded. *)
Lemma empty_start_not_forwarded :
  requests (snd (get_stock_data Sample.env0 (Some "") (Some "2024-12-29")
                   (Sample.w0 "TSLA")))
  ≠ [mk_request "TSLA" "" "2024-12-29"].
Proof. vm_compute. discriminate. Qed.

(** C10: an empty string counts as no argument.  A call with [""] is the call
    with [None], in both fetches and for both bounds; the request then carries
    the default date; a non-empty string is forwarded as it is. *)
Theorem empty_string_is_absent env (w : World) :
  clock_ok env →
  (∀ e, get_stock_data env (Some EmptyString) e w = get_stock_data env None e w)
  ∧ (∀ s, get_stock_data env s (Some EmptyString) w = get_stock_data env s None w)
  ∧ (∀ e, get_daily_volume env (Some EmptyString) e w = get_daily_volume env None e w)
  ∧ (∀ s, get_daily_volume env s (Some EmptyString) w = get_daily_volume env s None w)
  ∧ requests (snd (get_stock_data env (Some EmptyString) (Some EmptyString) w))
    = requests w ++ [mk_request (ticker (_ticker (self w)))
                       (default_start env w) (default_end env w)]
  ∧ requests (snd (get_daily_volume env (Some EmptyString) (Some EmptyString) w))
    = requests w ++ [mk_request (ticker (_ticker (self w)))
                       (default_start env w) (default_end env w)]
  ∧ (∀ s e, s ≠ EmptyString → e ≠ EmptyString →
       requests (snd (get_stock_data env (Some s) (Some e) w))
       = requests w ++ [mk_request (ticker (_ticker (self w))) s e]
       ∧ requests (snd (get_daily_volume env (Some s) (Some e) w))
         = requests w ++ [mk_request (ticker (_ticker (self w))) s e]).
Proof.
  intros Hclock.
  split; [reflexivity|]. split; [reflexivity|].
  split; [reflexivity|]. split; [reflexivity|].
  split; [by rewrite get_stock_data_run|].
  split; [by rewrite get_daily_volume_run|].
  intros s e Hs He.
  rewrite get_stock_data_run, get_daily_volume_run by done. cbn.
  by rewrite request_of_explicit.
Qed.

Lemma empty_string_is_absent_witness :
  requests (snd (get_stock_data Sample.env0 (Some EmptyString) (Some EmptyString)
                   (Sample.w0 "TSLA")))
  = [mk_request "TSLA" "2023-12-30" "2024-12-29"].
Proof.
  pose proof (empty_string_is_absent Sample.env0 (Sample.w0 "TSLA")
                ltac:(sample_clock)) as (_ & _ & _ & _ & H & _).
  exact H.
Defined.




Example default_range_2024 :
  requests (snd (get_stock_data Sample.env0 None None (Sample.w0 "TSLA")))
  = [mk_request "TSLA" "2023-12-30" "2024-12-29"].
Proof. vm_compute. reflexivity. Qed.

(** The two bounds come from two readings of the clock.  When midnight falls
    between them the start is taken from the next day: only 364 days lie
    between the two bounds. *)
Example default_range_over_midnight :
  requests (snd (get_stock_data
                   (mk_env (λ k, match k with
                                 | O => mk_datetime 2024 12 31 23 59 59 999999
                                 | _ => mk_datetime 2025 1 1 0 0 0 0
                                 end) (history Sample.env0))
                   None None (Sample.w0 "TSLA")))
  = [mk_request "TSLA" "2024-01-02" "2024-12-31"]
  ∧ (_ymd2ord 2024 12 31 - _ymd2ord 2024 1 2 = 364)%Z.
Proof. split; vm_compute; reflexivity. Qed.

Example ord2ymd_2024 : _ord2ymd 739249 = (2024, 12, 29)%Z.
Proof. reflexivity. Qed.

Example ymd2ord_2024 : _ymd2ord 2024 12 29 = 739249%Z.
Proof. reflexivity. Qed.

Example ymd2ord_max : _ymd2ord 9999 12 31 = _MAXORDINAL.
Proof. reflexivity. Qed.

(** In the first year of the calendar the default start does not exist and
    every call raises, whatever the arguments. *)
Example year_one_overflows :
  fst (get_stock_data
         (mk_env (Sample.fixed_clock (Sample.noon 1 6 1)) (history Sample.env0))
         (Some "2024-05-01") (Some "2024-12-29") (Sample.w0 "TSLA"))
  = Raise OverflowError.
Proof. vm_compute. reflexivity. Qed.

(** ** The object is left alone *)

Section KeepsSelf.
Context {A B : Type}.

Lemma keeps_self_ret (a : A) : keeps_self (mret a : M A).
Proof. intros w. reflexivity. Qed.

Lemma keeps_self_lift (x : outcome A) : keeps_self (lift x).
Proof. intros w. reflexivity. Qed.

Lemma keeps_self_bind (m : M A) (f : A → M B) :
  keeps_self m → (∀ a, keeps_self (f a)) → keeps_self (m ≫= f).
Proof.
  intros Hm Hf w. rewrite bind_run. specialize (Hm w).
  destruct (m w) as [[a|x] w']; simpl in *; [|done].
  rewrite Hf. done.
Qed.
End KeepsSelf.

Lemma keeps_self_now env : keeps_self (now env).
Proof. intros w. reflexivity. Qed.

Lemma keeps_self_get_ticker : keeps_self get_ticker.
Proof. intros w. reflexivity. Qed.

Lemma keeps_self_call_history env tk s e : keeps_self (call_history env tk s e).
Proof. intros w. reflexivity. Qed.

Lemma keeps_self_dict_get d k : keeps_self (dict_get d k).
Proof. unfold dict_get. destruct (d !! k); [apply keeps_self_ret|apply keeps_self_lift]. Qed.

Lemma keeps_self_py_or x d : keeps_self d → keeps_self (py_or x d).
Proof.
  intros Hd. unfold py_or. destruct x as [s|]; [|done].
  destruct (decide (s = EmptyString)); [done|apply keeps_self_ret].
Qed.

Create HintDb keeps.
#[local] Hint Resolve keeps_self_now keeps_self_get_ticker keeps_self_call_history
  keeps_self_dict_get keeps_self_py_or : keeps.
#[local] Hint Extern 1 (keeps_self (mret _)) => apply keeps_self_ret : keeps.
#[local] Hint Extern 1 (keeps_self (lift _)) => apply keeps_self_lift : keeps.
#[local] Hint Extern 2 (keeps_self (_ ≫= _)) => apply keeps_self_bind; [|intros ?] : keeps.

Lemma keeps_self_get_default_dates env : keeps_self (_get_default_dates env).
Proof. unfold _get_default_dates. auto 10 with keeps. Qed.

Lemma keeps_self_get_stock_data env s e : keeps_self (get_stock_data env s e).
Proof.
  unfold get_stock_data. pose proof (keeps_self_get_default_dates env).
  auto 12 with keeps.
Qed.

Lemma keeps_self_get_daily_volume env s e : keeps_self (get_daily_volume env s e).
Proof.
  unfold get_daily_volume. pose proof (keeps_self_get_default_dates env).
  auto 16 with keeps.
Qed.

Lemma keeps_self_get_combined_data env s e : keeps_self (get_combined_data env s e).
Proof.
  unfold get_combined_data.
  pose proof (keeps_self_get_stock_data env s e).
  pose proof (keeps_self_get_daily_volume env s e).
  auto 12 with keeps.
Qed.

(** C9: the constructor stores the symbol, and no operation changes the
    [ticker_symbol] of the object, for any arguments, clock and provider, on
    return or on an exception. *)
Theorem ticker_symbol_is_kept env (s e : option string) (w : World) :
  (∀ symbol, ticker_symbol (__init__ symbol) = symbol)
  ∧ ticker_symbol (self (snd (get_stock_data env s e w))) = ticker_symbol (self w)
  ∧ ticker_symbol (self (snd (get_daily_volume env s e w))) = ticker_symbol (self w)
  ∧ ticker_symbol (self (snd (get_combined_data env s e w))) = ticker_symbol (self w).
Proof.
  split; [reflexivity|].
  rewrite keeps_self_get_stock_data, keeps_self_get_daily_volume,
    keeps_self_get_combined_data. done.
Qed.

(** ** Exceptions and determinism *)

Lemma request_of_asked env s e rq w :
  s ≠ EmptyString → e ≠ EmptyString →
  request_of env (Some s) (Some e) (asked rq (ticked w))
  = mk_request (ticker (_ticker (self w))) s e.
Proof. intros Hs He. by rewrite request_of_explicit. Qed.

(** C8: [get_combined_data] has no handler.  An exception of the price fetch
    leaves it as it is, and the volume fetch is not started; an exception of
    the volume fetch leaves it as it is, although the price frame was there.
    In particular an error of the provider, on the first or on the second
    request, is the outcome of the whole call. *)
Theorem combined_propagates_errors env (s e : option string) (w : World) (x : exn) :
  (∀ w1, get_stock_data env s e w = (Raise x, w1) →
         get_combined_data env s e w = (Raise x, w1))
  ∧ (∀ price price_data w1 w2,
       get_stock_data env s e w = (Ok price, w1) →
       reset_index price = Ok price_data →
       get_daily_volume env s e w1 = (Raise x, w2) →
       get_combined_data env s e w = (Raise x, w2))
  ∧ (clock_ok env →
     history env (request_of env s e w) (length (requests w)) = Raise x →
     fst (get_stock_data env s e w) = Raise x
     ∧ fst (get_daily_volume env s e w) = Raise x
     ∧ fst (get_combined_data env s e w) = Raise x
     ∧ length (requests (snd (get_combined_data env s e w))) = S (length (requests w)))
  ∧ (clock_ok env →
     ∀ price price_data w1,
       get_stock_data env s e w = (Ok price, w1) →
       reset_index price = Ok price_data →
       history env (request_of env s e w1) (length (requests w1)) = Raise x →
       fst (get_combined_data env s e w) = Raise x).
Proof.
  split; [|split; [|split]].
  - intros w1 E. rewrite get_combined_data_run, E. reflexivity.
  - intros price price_data w1 w2 E1 E2 E3.
    rewrite get_combined_data_run, E1, E2, E3. reflexivity.
  - intros Hclock E.
    rewrite get_combined_data_run.
    rewrite get_stock_data_run, get_daily_volume_run by done.
    cbv zeta. rewrite E. cbn. rewrite length_app. cbn. split_and!; [done..|lia].
  - intros Hclock price price_data w1 E1 E2 E3.
    rewrite get_combined_data_run, E1, E2.
    rewrite get_daily_volume_run by done. cbv zeta. rewrite E3. reflexivity.
Qed.

Lemma combined_propagates_errors_witness :
  fst (get_combined_data Sample.env_flaky (Some "2024-05-01") (Some "2024-12-29")
         (Sample.w0 "TSLA"))
  = Raise (ProviderError "ConnectionError" "timed out").
Proof.
  pose proof (combined_propagates_errors Sample.env_flaky
                (Some "2024-05-01") (Some "2024-12-29") (Sample.w0 "TSLA")
                (ProviderError "ConnectionError" "timed out")) as (_ & _ & _ & H).
  eapply (H ltac:(sample_clock)).
  - vm_compute. reflexivity.
  - vm_compute. reflexivity.
  - vm_compute. reflexivity.
Defined.

(** C7: two runs with the same explicit arguments, in which the provider
    answers the request alike, give the same outcome, whatever the clocks
    show and whatever was asked before.  For [get_combined_data] the provider
    is asked twice, so both answers are to agree. *)
Theorem same_answers_same_outcome env1 env2 (s e : string) (w1 w2 : World) :
  clock_ok env1 → clock_ok env2 →
  s ≠ EmptyString → e ≠ EmptyString →
  ticker (_ticker (self w1)) = ticker (_ticker (self w2)) →
  history env1 (mk_request (ticker (_ticker (self w1))) s e) (length (requests w1))
  = history env2 (mk_request (ticker (_ticker (self w1))) s e) (length (requests w2)) →
  history env1 (mk_request (ticker (_ticker (self w1))) s e) (S (length (requests w1)))
  = history env2 (mk_request (ticker (_ticker (self w1))) s e) (S (length (requests w2))) →
  fst (get_stock_data env1 (Some s) (Some e) w1)
  = fst (get_stock_data env2 (Some s) (Some e) w2)
  ∧ fst (get_daily_volume env1 (Some s) (Some e) w1)
    = fst (get_daily_volume env2 (Some s) (Some e) w2)
  ∧ fst (get_combined_data env1 (Some s) (Some e) w1)
    = fst (get_combined_data env2 (Some s) (Some e) w2).
Proof.
  intros Hc1 Hc2 Hs He Htk H1 H2.
  assert (Hlen : ∀ rq w, length (requests (asked rq (ticked w))) = S (length (requests w))).
  { intros rq w. cbn. rewrite length_app. cbn. lia. }
  rewrite !get_combined_data_run.
  rewrite !get_stock_data_run by done. cbv zeta.
  rewrite !request_of_explicit by done. rewrite <- Htk, <- H1.
  split; [reflexivity|]. split.
  - rewrite !get_daily_volume_run by done. cbv zeta.
    rewrite !request_of_explicit by done. rewrite <- Htk, <- H1. reflexivity.
  - destruct (history env1 _ (length (requests w1))) as [R|x]; [|reflexivity].
    cbn [obind]. destruct (prices_of R) as [price|x]; [|reflexivity].
    destruct (reset_index price) as [price_data|x]; [|reflexivity].
    rewrite !get_daily_volume_run by done. cbv zeta.
    rewrite !request_of_asked, !Hlen by done. rewrite <- Htk, <- H2.
    destruct (obind _ volume_of); reflexivity.
Qed.

Lemma same_answers_same_outcome_witness :
  fst (get_combined_data Sample.env0 (Some "2024-05-01") (Some "2024-12-29")
         (Sample.w0 "TSLA"))
  = fst (get_combined_data
           (mk_env (Sample.fixed_clock (Sample.noon 2025 3 1)) (history Sample.env0))
           (Some "2024-05-01") (Some "2024-12-29")
           (mk_world (__init__ "TSLA") 7 [mk_request "TSLA" "2020-01-01" "2020-02-01"])).
Proof.
  eapply (same_answers_same_outcome Sample.env0
            (mk_env (Sample.fixed_clock (Sample.noon 2025 3 1)) (history Sample.env0))
            "2024-05-01" "2024-12-29").
  - sample_clock.
  - sample_clock.
  - discriminate.
  - discriminate.
  - reflexivity.
  - reflexivity.
  - reflexivity.
Defined.

(** ** pandas: selecting columns *)

Section Columns.
Implicit Types (cols names : list string) (df : DataFrame).

Lemma index_of_Some name cols i :
  index_of name cols = Some i → cols !! i = Some name.
Proof.
  revert i. induction cols as [|c cols IH]; intros i; simpl; [done|].
  destruct (decide (c = name)) as [->|Hne].
  - intros [= <-]. done.
  - destruct (index_of name cols) as [j|] eqn:E; simpl; [|done].
    intros [= <-]. simpl. by apply IH.
Qed.

Lemma index_of_None name cols : index_of name cols = None ↔ name ∉ cols.
Proof.
  induction cols as [|c cols IH]; simpl.
  - split; [intros _; apply not_elem_of_nil|done].
  - destruct (decide (c = name)) as [->|Hne].
    + split; [done|]. intros H. exfalso. apply H. left.
    + rewrite not_elem_of_cons, <- IH.
      destruct (index_of name cols); simpl; split; try done.
      by intros [_ ?].
Qed.

Lemma index_of_elem name cols : name ∈ cols → ∃ i, index_of name cols = Some i.
Proof.
  intros Hin. destruct (index_of name cols) as [i|] eqn:E; [by exists i|].
  by apply index_of_None in E.
Qed.

Lemma positions_lookup name cols i :
  i ∈ positions name cols ↔ cols !! i = Some name.
Proof.
  revert i. induction cols as [|c cols IH]; intros i; simpl.
  - split; [by intros ?%elem_of_nil|done].
  - assert (Hrest : i ∈ map S (positions name cols) ↔ ∃ j, i = S j ∧ cols !! j = Some name).
    { rewrite list_elem_of_fmap. split.
      - intros (j & -> & Hj). exists j. split; [done|by apply IH].
      - intros (j & -> & Hj). exists j. split; [done|by apply IH]. }
    destruct (decide (c = name)) as [->|Hne].
    + rewrite elem_of_cons, Hrest. destruct i as [|i]; simpl.
      * split; [done|by left].
      * split; [by intros [?|(j & [= ->] & Hj)]|].
        intros Hi. right. by exists i.
    + rewrite Hrest. destruct i as [|i]; simpl.
      * split; [by intros (j & ? & _)|]. by intros [= ?].
      * split; [by intros (j & [= ->] & Hj)|]. intros Hi. by exists i.
Qed.

Lemma positions_not_elem name cols : name ∉ cols → positions name cols = [].
Proof.
  induction cols as [|c cols IH]; simpl; [done|].
  intros [Hne Hnin]%not_elem_of_cons.
  destruct (decide (c = name)); [done|]. by rewrite IH.
Qed.

Lemma positions_NoDup name cols i :
  NoDup cols → index_of name cols = Some i → positions name cols = [i].
Proof.
  revert i. induction cols as [|c cols IH]; intros i Hnd; simpl; [done|].
  apply NoDup_cons in Hnd as [Hnin Hnd].
  destruct (decide (c = name)) as [->|Hne].
  - intros [= <-]. by rewrite positions_not_elem.
  - destruct (index_of name cols) as [j|] eqn:E; simpl; [|done].
    intros [= <-]. by rewrite (IH j).
Qed.

Lemma take_length {A} (d : A) idx (l : list A) : length (take d idx l) = length idx.
Proof. apply length_map. Qed.

(** When every label is there, [df[names]] is the frame of the selected
    positions. *)
Lemma getitem_ok names df :
  Forall (λ n, n ∈ columns df) names →
  getitem names df =
    Ok {| index_name := index_name df;
          columns := take EmptyString (flat_map (λ n, positions n (columns df)) names)
                       (columns df);
          rows := map (λ r : row,
                    (fst r, take NA (flat_map (λ n, positions n (columns df)) names) (snd r)))
                    (rows df) |}.
Proof.
  intros Hall. unfold getitem.
  destruct (list_find _ names) as [[i n]|] eqn:E; [|done].
  apply list_find_Some in E as (Hi & Hn & _).
  rewrite Forall_forall in Hall. exfalso. apply Hn, Hall.
  eapply list_elem_of_lookup_2, Hi.
Qed.

Lemma getitem_missing names df :
  ¬ Forall (λ n, n ∈ columns df) names → ∃ n, getitem names df = Raise (KeyError n).
Proof.
  intros Hnot. unfold getitem.
  destruct (list_find _ names) as [[i n]|] eqn:E; [by exists n|].
  apply list_find_None in E. exfalso. apply Hnot.
  eapply Forall_impl; [exact E|]. intros n Hn. simpl in Hn.
  destruct (decide (n ∈ columns df)); [done|]. by destruct Hn.
Qed.

(** Whatever [df[names]] returns has only columns called as asked, as many
    cells in every row as it has columns, and the index and the rows of [df],
    in order. *)
Lemma getitem_shape names df out :
  getitem names df = Ok out →
  index_name out = index_name df
  ∧ (∀ c, c ∈ columns out ↔ c ∈ names)
  ∧ labels out = labels df
  ∧ wf out.
Proof.
  intros E.
  destruct (decide (Forall (λ n, n ∈ columns df) names)) as [Hall|Hnot].
  2:{ apply getitem_missing in Hnot as [n Hn]. congruence. }
  rewrite getitem_ok in E by done. injection E as <-. simpl.
  split; [done|]. split; [|split].
  - intros c. unfold take. split.
    + intros Hc. apply list_elem_of_fmap in Hc as (i & -> & Hi).
      apply list_elem_of_In, in_flat_map in Hi as (n & Hn & Hi).
      apply list_elem_of_In, positions_lookup in Hi.
      apply list_elem_of_In in Hn.
      by rewrite (nth_lookup_Some _ _ _ _ Hi).
    + intros Hc. rewrite Forall_forall in Hall.
      destruct (index_of_elem _ _ (Hall c Hc)) as [i Hi].
      apply index_of_Some in Hi.
      apply list_elem_of_fmap. exists i.
      split; [by rewrite (nth_lookup_Some _ _ _ _ Hi)|].
      apply list_elem_of_In, in_flat_map. exists c.
      split; apply list_elem_of_In; [done|]. by apply positions_lookup.
  - unfold labels. simpl. rewrite map_map. done.
  - apply Forall_forall. intros r Hr. simpl in Hr.
    apply list_elem_of_fmap in Hr as (r0 & -> & _). simpl.
    by rewrite !take_length.
Qed.

(** With distinct column labels the selection is the list of labels asked
    for, and each cell is the cell under that label. *)
Lemma getitem_NoDup names df :
  NoDup (columns df) → Forall (λ n, n ∈ columns df) names →
  getitem names df =
    Ok {| index_name := index_name df;
          columns := names;
          rows := map (λ r : row, (fst r, map (λ n, cell_at df n r) names)) (rows df) |}.
Proof.
  intros Hnd Hall. rewrite getitem_ok by done. f_equal.
  assert (Hcols : take EmptyString (flat_map (λ n, positions n (columns df)) names)
                    (columns df) = names).
  { unfold take. induction Hall as [|n names Hn Hall IH]; [done|].
    apply index_of_elem in Hn as [i Hi]. cbn [flat_map].
    rewrite (positions_NoDup _ _ _ Hnd Hi). cbn [app map]. rewrite IH.
    f_equal. apply index_of_Some in Hi. by rewrite (nth_lookup_Some _ _ _ _ Hi). }
  rewrite Hcols. f_equal.
  apply map_ext. intros r. f_equal.
  clear Hcols. unfold take. induction Hall as [|n names Hn Hall IH]; [done|].
  apply index_of_elem in Hn as [i Hi]. cbn [flat_map].
  rewrite (positions_NoDup _ _ _ Hnd Hi). cbn [app map]. rewrite IH.
  f_equal. unfold cell_at. by rewrite Hi.
Qed.
End Columns.

(** ** pandas: moving the index *)

Lemma map_imap_ext {A B C} (g : B → C) (f : nat → A → B) (h : A → C) (l : list A) :
  (∀ k x, g (f k x) = h x) → map g (imap f l) = map h l.
Proof.
  intros Hgf. apply list_eq. intros k.
  change (map g (imap f l)) with (g <$> imap f l). change (map h l) with (h <$> l).
  rewrite !list_lookup_fmap, list_lookup_imap.
  destruct (l !! k); simpl; [by rewrite Hgf|done].
Qed.

Lemma range_index_snd (l : list (list cell)) : map snd (range_index l) = l.
Proof.
  unfold range_index. rewrite (map_imap_ext _ _ id) by done. apply map_id.
Qed.

Lemma range_index_length (l : list (list cell)) : length (range_index l) = length l.
Proof. apply length_imap. Qed.

Lemma range_index_lookup (l : list (list cell)) k :
  range_index l !! k = (λ cells, (Num (Z.of_nat k), cells)) <$> l !! k.
Proof. exact (list_lookup_imap (λ i cells, (Num (Z.of_nat i), cells)) l k). Qed.

(** A frame of one column, turned into the two-column frame of
    [get_daily_volume]. *)
Lemma volume_of_shape (R V : DataFrame) :
  volume_of R = Ok V →
  index_name V = None
  ∧ columns V = ["Date"; "Volume"]
  ∧ Forall (λ r : row, ∃ d v, snd r = [d; v]) (rows V)
  ∧ map (λ r : row, key_of 0 (snd r)) (rows V) = labels R.
Proof.
  unfold volume_of, obind.
  destruct (getitem ["Volume"] R) as [sel|] eqn:Esel; [|done].
  apply getitem_shape in Esel as (_ & _ & Hlab & Hwf).
  unfold reset_index. destruct (decide (_ ∈ columns sel)); [done|].
  unfold set_columns; simpl.
  destruct (decide (2%nat = S (length (columns sel)))) as [Hlen|]; [|done].
  intros [= <-]; simpl. split; [done|]. split; [done|].
  injection Hlen as Hlen. split.
  - apply Forall_forall. intros r Hr.
    apply list_elem_of_lookup in Hr as [k Hk].
    rewrite range_index_lookup, list_lookup_fmap in Hk.
    destruct (rows sel !! k) as [r0|] eqn:E0; [|done]. injection Hk as <-.
    unfold wf in Hwf. rewrite Forall_forall in Hwf.
    specialize (Hwf r0 (list_elem_of_lookup_2 _ _ _ E0)).
    rewrite <- Hlen in Hwf. simpl.
    destruct (snd r0) as [|v [|]]; [done| |done]. by exists (fst r0), v.
  - rewrite <- Hlab. unfold labels.
    transitivity (map (key_of 0) (map snd (range_index
                    (map (λ r : row, fst r :: snd r) (rows sel))))).
    { by rewrite map_map. }
    rewrite range_index_snd, map_map. done.
Qed.

Lemma volume_of_NoDup (R : DataFrame) :
  NoDup (columns R) → "Volume" ∈ columns R → index_name R ≠ Some "Volume" →
  volume_of R =
    Ok {| index_name := None;
          columns := ["Date"; "Volume"];
          rows := range_index (map (λ r : row, [fst r; cell_at R "Volume" r]) (rows R)) |}.
Proof.
  intros Hnd Hvol Hidx. unfold volume_of.
  rewrite getitem_NoDup by (try done; by apply Forall_singleton).
  unfold obind, reset_index; simpl.
  destruct (decide (_ ∈ ["Volume"])) as [Hin|_].
  { exfalso. apply list_elem_of_singleton in Hin.
    destruct (index_name R) as [n|]; [by subst n|done]. }
  unfold set_columns; simpl. rewrite map_map. done.
Qed.

(** ** The two fetches *)

(** C4: the price fetch keeps the index of the provider's answer (the dates,
    row by row, none added and none dropped) and keeps columns called Open,
    High, Low and Close only; when the answer has distinct labels, the columns
    are exactly these four, in this order, and every row carries the four
    cells it had under them. *)
Theorem prices_are_projected env (s e : option string) (w : World) (R : DataFrame) :
  clock_ok env →
  history env (request_of env s e w) (length (requests w)) = Ok R →
  Forall (λ c, c ∈ columns R) ["Open"; "High"; "Low"; "Close"] →
  ∃ P, fst (get_stock_data env s e w) = Ok P
    ∧ index_name P = index_name R
    ∧ labels P = labels R
    ∧ length (rows P) = length (rows R)
    ∧ (∀ c, c ∈ columns P ↔ c ∈ ["Open"; "High"; "Low"; "Close"])
    ∧ (NoDup (columns R) →
       columns P = ["Open"; "High"; "Low"; "Close"]
       ∧ rows P = map (λ r : row,
                    (fst r, [cell_at R "Open" r; cell_at R "High" r;
                             cell_at R "Low" r; cell_at R "Close" r])) (rows R)).
Proof.
  intros Hclock HR Hall.
  rewrite get_stock_data_run by done. cbv zeta. rewrite HR. cbn [fst obind].
  unfold prices_of.
  destruct (getitem _ R) as [P|x] eqn:EP.
  2:{ rewrite getitem_ok in EP by done. done. }
  exists P. split; [done|].
  pose proof (getitem_shape _ _ _ EP) as (Hidx & Hsub & Hlab & _).
  split; [done|]. split; [done|]. split; [|split].
  - transitivity (length (labels P)); [unfold labels; by rewrite length_map|].
    rewrite Hlab. unfold labels. by rewrite length_map.
  - exact Hsub.
  - intros Hnd. rewrite getitem_NoDup in EP by done. by injection EP as <-.
Qed.

Lemma prices_are_projected_witness :
  ∃ P, fst (get_stock_data Sample.env0 (Some "2024-05-01") (Some "2024-12-29")
              (Sample.w0 "TSLA")) = Ok P
    ∧ columns P = ["Open"; "High"; "Low"; "Close"]
    ∧ labels P = [Stamp 739007; Stamp 739008; Stamp 739009].
Proof.
  destruct (prices_are_projected Sample.env0 (Some "2024-05-01") (Some "2024-12-29")
              (Sample.w0 "TSLA") (Sample.bars Sample.may))
    as (P & HP & _ & Hlab & _ & _ & Hex).
  - sample_clock.
  - reflexivity.
  - apply (bool_decide_unpack _). vm_compute. reflexivity.
  - exists P. split; [exact HP|]. split; [|exact Hlab].
    apply Hex. apply (bool_decide_unpack _). vm_compute. reflexivity.
Defined.

Ltac decide_it := apply (bool_decide_unpack _); vm_compute; reflexivity.

(** Case analysis on membership in a list that is written out. *)
Ltac cases_elem H :=
  repeat (apply elem_of_cons in H as [H|H]); try (by apply elem_of_nil in H).

Lemma daily_bars_fields R :
  daily_bars R →
  Forall (λ c, c ∈ columns R) ["Open"; "High"; "Low"; "Close"] ∧ "Volume" ∈ columns R.
Proof.
  intros (_ & _ & H). repeat (apply Forall_cons in H as [? H]).
  split; [by repeat constructor|done].
Qed.

(** C5, as the code has it: the volume fetch returns a frame with exactly the
    two columns Date and Volume, whatever the provider called its index; the
    date of a bar is the first, ordinary cell of its row, the volume the
    second; the index is the positions 0, 1, 2, ... and has no name. *)
Theorem volume_has_date_column env (s e : option string) (w : World) (R : DataFrame) :
  clock_ok env →
  history env (request_of env s e w) (length (requests w)) = Ok R →
  NoDup (columns R) → "Volume" ∈ columns R → index_name R ≠ Some "Volume" →
  ∃ V, fst (get_daily_volume env s e w) = Ok V
    ∧ index_name V = None
    ∧ columns V = ["Date"; "Volume"]
    ∧ rows V = imap (λ k (r : row),
                 (Num (Z.of_nat k), [fst r; cell_at R "Volume" r])) (rows R)
    ∧ labels V = map (λ k, Num (Z.of_nat k)) (seq 0 (length (rows R)))
    ∧ column "Date" V = labels R.
Proof.
  intros Hclock HR Hnd Hvol Hidx.
  rewrite get_daily_volume_run by done. cbv zeta. rewrite HR. cbn [fst obind].
  rewrite volume_of_NoDup by done. eexists. split; [reflexivity|]. cbn.
  split; [done|]. split; [done|].
  assert (Hrows : range_index (map (λ r : row, [fst r; cell_at R "Volume" r]) (rows R))
                  = imap (λ k (r : row),
                      (Num (Z.of_nat k), [fst r; cell_at R "Volume" r])) (rows R)).
  { unfold range_index. change (map ?f ?l) with (f <$> l). by rewrite imap_fmap. }
  rewrite Hrows. split; [done|]. split.
  - unfold labels. cbn. apply list_eq. intros k.
    change (map ?f ?l) with (f <$> l). rewrite !list_lookup_fmap, list_lookup_imap.
    destruct (rows R !! k) as [r|] eqn:E; simpl.
    + rewrite lookup_seq_lt by (by eapply lookup_lt_Some). done.
    + rewrite lookup_seq_ge by (by apply lookup_ge_None). done.
  - unfold column, labels. cbn [rows]. by apply map_imap_ext.
Qed.

Lemma volume_has_date_column_witness :
  ∃ V, fst (get_daily_volume Sample.env0 (Some "2024-05-01") (Some "2024-12-29")
              (Sample.w0 "TSLA")) = Ok V
    ∧ index_name V = None
    ∧ columns V = ["Date"; "Volume"]
    ∧ labels V = [Num 0; Num 1; Num 2]
    ∧ column "Date" V = [Stamp 739007; Stamp 739008; Stamp 739009].
Proof.
  destruct (volume_has_date_column Sample.env0 (Some "2024-05-01") (Some "2024-12-29")
              (Sample.w0 "TSLA") (Sample.bars Sample.may))
    as (V & HV & Hidx & Hcols & _ & Hlab & Hdate).
  - sample_clock.
  - reflexivity.
  - decide_it.
  - decide_it.
  - discriminate.
  - exists V. split; [exact HV|]. split; [exact Hidx|]. split; [exact Hcols|].
    split; [exact Hlab|exact Hdate].
Defined.

(** C5 as stated fails: the frame of the volume fetch is not indexed by the
    date.  For three bars its index is 0, 1, 2 and has no name, and Date is
    one of its columns. *)
Lemma volume_not_indexed_by_date :
  ¬ ∃ V, fst (get_daily_volume Sample.env0 (Some "2024-05-01") (Some "2024-12-29")
               (Sample.w0 "TSLA")) = Ok V
      ∧ index_name V = Some "Date"
      ∧ labels V = labels (Sample.bars Sample.may).
Proof. intros (V & HV & Hidx & _). vm_compute in HV. injection HV as <-. discriminate. Qed.

(** C6: an answer without rows is not an error.  When the provider's frame
    has its columns and no rows, the price fetch and the volume fetch return
    frames without rows, and so does [get_combined_data] when both answers
    are such. *)
Theorem empty_answer_is_empty_frame env (s e : option string) (w : World)
    (R1 R2 : DataFrame) :
  clock_ok env →
  daily_bars R1 → rows R1 = [] →
  daily_bars R2 → rows R2 = [] →
  history env (request_of env s e w) (length (requests w)) = Ok R1 →
  history env (request_of env s e (asked (request_of env s e w) (ticked w)))
    (S (length (requests w))) = Ok R2 →
  fst (get_stock_data env s e w)
  = Ok {| index_name := Some "Date";
          columns := ["Open"; "High"; "Low"; "Close"]; rows := [] |}
  ∧ fst (get_daily_volume env s e w)
    = Ok {| index_name := None; columns := ["Date"; "Volume"]; rows := [] |}
  ∧ fst (get_combined_data env s e w)
    = Ok {| index_name := Some "Date";
            columns := ["Open"; "High"; "Low"; "Close"; "Volume"]; rows := [] |}.
Proof.
  intros Hclock Hb1 Hr1 Hb2 Hr2 H1 H2.
  pose proof Hb1 as (Hi1 & Hnd1 & _). pose proof (daily_bars_fields _ Hb1) as [Hall1 _].
  assert (Hp : prices_of R1 = Ok {| index_name := Some "Date";
                 columns := ["Open"; "High"; "Low"; "Close"]; rows := [] |}).
  { unfold prices_of. rewrite getitem_NoDup; [by rewrite Hi1, Hr1|done..]. }
  assert (Hv : ∀ R, daily_bars R → rows R = [] →
               volume_of R = Ok {| index_name := None;
                                   columns := ["Date"; "Volume"]; rows := [] |}).
  { intros R Hb Hr. pose proof Hb as (Hi & Hnd & _).
    pose proof (daily_bars_fields _ Hb) as [_ Hvol].
    rewrite volume_of_NoDup; [by rewrite Hr|done..|by rewrite Hi]. }
  split; [|split].
  - rewrite get_stock_data_run by done. cbv zeta. by rewrite H1.
  - rewrite get_daily_volume_run by done. cbv zeta. rewrite H1. by apply Hv.
  - rewrite get_combined_data_run.
    rewrite get_stock_data_run by done. cbv zeta. rewrite H1. cbn [obind]. rewrite Hp.
    cbn [reset_index]. unfold reset_index. cbn.
    rewrite get_daily_volume_run by done. cbv zeta.
    replace (length (requests (asked (request_of env s e w) (ticked w))))
      with (S (length (requests w))) by (cbn; rewrite length_app; cbn; lia).
    rewrite H2. cbn [obind]. rewrite (Hv R2) by done. reflexivity.
Qed.

Lemma empty_answer_is_empty_frame_witness :
  fst (get_combined_data Sample.env_empty None None (Sample.w0 "NOSUCH"))
  = Ok {| index_name := Some "Date";
          columns := ["Open"; "High"; "Low"; "Close"; "Volume"]; rows := [] |}.
Proof.
  eapply (empty_answer_is_empty_frame Sample.env_empty None None (Sample.w0 "NOSUCH")
            (Sample.bars []) (Sample.bars [])).
  - sample_clock.
  - split; [reflexivity|]. split; decide_it.
  - reflexivity.
  - split; [reflexivity|]. split; decide_it.
  - reflexivity.
  - reflexivity.
  - reflexivity.
Defined.

(** A frame without rows and without columns is another matter: selecting
    the price columns raises. *)
Example empty_without_columns_raises :
  fst (get_stock_data (mk_env (clock Sample.env0) (λ _ _, Ok (mk_frame None [] [])))
         None None (Sample.w0 "NOSUCH"))
  = Raise (KeyError "Open").
Proof. vm_compute. reflexivity. Qed.

(** ** pandas: the order of keys, and the outer join *)

#[global] Instance cell_le_total : Total cell_le.
Proof.
  intros a b. unfold cell_le.
  destruct a as [|x|x], b as [|y|y]; simpl; auto; rewrite !Z.leb_le; lia.
Qed.

#[global] Instance cell_le_trans : Transitive cell_le.
Proof.
  intros a b c. unfold cell_le.
  destruct a as [|x|x], b as [|y|y], c as [|z|z]; simpl; auto; try done;
    rewrite !Z.leb_le; lia.
Qed.

#[global] Instance key_le_total i : Total (key_le i).
Proof. intros r1 r2. apply cell_le_total. Qed.

Lemma cell_le_Stamp (a b : Z) : cell_le (Stamp a) (Stamp b) ↔ (a ≤ b)%Z.
Proof. unfold cell_le. simpl. apply Z.leb_le. Qed.

Lemma elem_of_flat_map {A B} (f : A → list B) (l : list A) (y : B) :
  y ∈ flat_map f l ↔ ∃ x, x ∈ l ∧ y ∈ f x.
Proof.
  rewrite list_elem_of_In, in_flat_map. setoid_rewrite list_elem_of_In. done.
Qed.

Lemma elem_of_map {A B} (f : A → B) (l : list A) (y : B) :
  y ∈ map f l ↔ ∃ x, y = f x ∧ x ∈ l.
Proof. apply list_elem_of_fmap. Qed.

Lemma join_keys_elem (lk rk : list cell) (k : cell) :
  k ∈ join_keys lk rk ↔ k ∈ lk ∨ k ∈ rk.
Proof.
  unfold join_keys. rewrite merge_sort_Permutation, elem_of_remove_dups.
  apply elem_of_app.
Qed.

Lemma join_keys_sorted (lk rk : list cell) : Sorted cell_le (join_keys lk rk).
Proof. apply Sorted_merge_sort, _. Qed.

Lemma join_keys_NoDup (lk rk : list cell) : NoDup (join_keys lk rk).
Proof.
  unfold join_keys. rewrite merge_sort_Permutation. apply NoDup_remove_dups.
Qed.

Lemma filter_key_nil (i : nat) (k : cell) (L : list (list cell)) :
  filter (λ l, key_of i l = k) L = [] ↔ k ∉ map (key_of i) L.
Proof.
  split.
  - intros Hnil Hin. apply elem_of_map in Hin as (l & -> & Hl).
    by eapply filter_nil_not_elem_of.
  - intros Hnot. destruct (filter _ L) as [|l ls] eqn:E; [done|].
    assert (Hl : l ∈ filter (λ l, key_of i l = k) L) by (rewrite E; left).
    apply list_elem_of_filter in Hl as [Hk Hl].
    exfalso. apply Hnot, elem_of_map. by exists l.
Qed.

(** The rows of an outer join: the pairs of rows with equal keys, the left
    rows without a partner, and the right rows without a partner. *)
Lemma join_rows_elem (i j nl nr : nat) (L R : list (list cell)) (c : list cell) :
  c ∈ join_rows i j nl nr L R ↔
    (∃ l r, l ∈ L ∧ r ∈ R ∧ key_of i l = key_of j r ∧ c = l ++ drop_at j r)
    ∨ (∃ l, l ∈ L ∧ (key_of i l ∉ map (key_of j) R)
            ∧ c = l ++ replicate (nr - 1) NA)
    ∨ (∃ r, r ∈ R ∧ (key_of j r ∉ map (key_of i) L)
            ∧ c = (<[i := key_of j r]> (replicate nl NA)) ++ drop_at j r).
Proof.
  unfold join_rows. rewrite elem_of_flat_map.
  setoid_rewrite join_keys_elem. split.
  - intros (k & _ & Hc).
    destruct (filter (λ l, key_of i l = k) L) as [|l0 ls] eqn:El;
      destruct (filter (λ r, key_of j r = k) R) as [|r0 rs] eqn:Er.
    + by apply elem_of_nil in Hc.
    + right; right. apply elem_of_map in Hc as (r & -> & Hr).
      rewrite <- Er in Hr. apply list_elem_of_filter in Hr as [Hk Hr].
      exists r. split; [done|]. rewrite Hk. split; [|done].
      by apply filter_key_nil.
    + right; left. apply elem_of_map in Hc as (l & -> & Hl).
      rewrite <- El in Hl. apply list_elem_of_filter in Hl as [Hk Hl].
      exists l. split; [done|]. rewrite Hk. split; [|done].
      by apply filter_key_nil.
    + left. apply elem_of_flat_map in Hc as (l & Hl & Hc).
      apply elem_of_map in Hc as (r & -> & Hr).
      rewrite <- El in Hl. rewrite <- Er in Hr.
      apply list_elem_of_filter in Hl as [Hkl Hl].
      apply list_elem_of_filter in Hr as [Hkr Hr].
      exists l, r. by rewrite Hkl, Hkr.
  - intros [(l & r & Hl & Hr & Hk & ->)|[(l & Hl & Hk & ->)|(r & Hr & Hk & ->)]].
    + exists (key_of i l). split; [left; apply elem_of_map; eauto|].
      assert (Hfl : l ∈ filter (λ l', key_of i l' = key_of i l) L)
        by (by apply list_elem_of_filter).
      assert (Hfr : r ∈ filter (λ r', key_of j r' = key_of i l) R)
        by (by apply list_elem_of_filter).
      destruct (filter _ L) as [|l0 ls]; [by apply elem_of_nil in Hfl|].
      destruct (filter _ R) as [|r0 rs]; [by apply elem_of_nil in Hfr|].
      apply elem_of_flat_map. exists l. split; [done|].
      apply elem_of_map. by exists r.
    + exists (key_of i l). split; [left; apply elem_of_map; eauto|].
      assert (Hfl : l ∈ filter (λ l', key_of i l' = key_of i l) L)
        by (by apply list_elem_of_filter).
      apply filter_key_nil in Hk. rewrite Hk.
      destruct (filter _ L) as [|l0 ls]; [by apply elem_of_nil in Hfl|].
      apply elem_of_map. by exists l.
    + exists (key_of j r). split; [right; apply elem_of_map; eauto|].
      assert (Hfr : r ∈ filter (λ r', key_of j r' = key_of j r) R)
        by (by apply list_elem_of_filter).
      apply filter_key_nil in Hk. rewrite Hk.
      apply elem_of_map. by exists r.
Qed.

(** ** The combined frame *)

Section Inversion.
Context {A B : Type}.

Lemma bind_ok_inv (m : M A) (f : A → M B) w b w' :
  (m ≫= f) w = (Ok b, w') → ∃ a w1, m w = (Ok a, w1) ∧ f a w1 = (Ok b, w').
Proof.
  rewrite bind_run. destruct (m w) as [[a|x] w1]; [|done]. intros E. eauto.
Qed.

Lemma lift_ok_inv (x : outcome A) w a w' : lift x w = (Ok a, w') → x = Ok a.
Proof. unfold lift. by intros [= -> _]. Qed.
End Inversion.

Lemma get_stock_data_inv env s e w P w1 :
  get_stock_data env s e w = (Ok P, w1) → ∃ R, prices_of R = Ok P.
Proof.
  unfold get_stock_data. intros E.
  do 5 (apply bind_ok_inv in E as (? & ? & _ & E)).
  apply lift_ok_inv in E. eauto.
Qed.

Lemma get_daily_volume_inv env s e w V w1 :
  get_daily_volume env s e w = (Ok V, w1) → ∃ R, volume_of R = Ok V.
Proof.
  unfold get_daily_volume. intros E.
  do 5 (apply bind_ok_inv in E as (? & ? & _ & E)).
  apply bind_ok_inv in E as (sel & ? & Esel & E). apply lift_ok_inv in Esel.
  apply bind_ok_inv in E as (vd & ? & Evd & E). apply lift_ok_inv in Evd.
  apply lift_ok_inv in E.
  eexists. unfold volume_of. rewrite Esel. cbn [obind]. rewrite Evd. exact E.
Qed.

Lemma suffixed_id (on sfx : string) (other cols : list string) :
  (∀ c, c ∈ cols → c ≠ on → c ∉ other) → suffixed on sfx other cols = cols.
Proof.
  intros H. unfold suffixed. rewrite <- (map_id cols) at 2.
  apply map_ext_in. intros c Hc%list_elem_of_In.
  destruct (decide (c ≠ on ∧ c ∈ other)) as [[Hne Hin]|]; [|done].
  by destruct (H c Hc Hne).
Qed.

(** The pandas steps of [get_combined_data] on a price frame indexed by Date
    and a volume frame with the columns Date and Volume. *)
Lemma join_on_date_frames (P V : DataFrame) :
  index_name P = Some "Date" →
  (∀ c, c ∈ columns P → c ∈ ["Open"; "High"; "Low"; "Close"]) →
  columns V = ["Date"; "Volume"] →
  obind (reset_index P) (λ price_data, join_on_date price_data V) =
    Ok {| index_name := Some "Date";
          columns := columns P ++ ["Volume"];
          rows := map (λ r : row, (key_of 0 (snd r), drop_at 0 (snd r)))
                    (merge_sort (key_le 0)
                       (range_index
                          (join_rows 0 0 (S (length (columns P))) 2
                             (map (λ r : row, fst r :: snd r) (rows P))
                             (map snd (rows V))))) |}.
Proof.
  intros Hidx Hsub Hcols.
  assert (Hno : ∀ c, c ∈ columns P → c ≠ "Date" ∧ c ≠ "Volume").
  { intros c Hc. apply Hsub in Hc. cases_elem Hc; by subst c. }
  unfold reset_index. rewrite Hidx.
  destruct (decide ("Date" ∈ columns P)) as [Hin|_].
  { by destruct (Hno _ Hin). }
  cbn [obind]. unfold join_on_date, merge_outer. cbn [columns rows index_of].
  rewrite Hcols. cbn [index_of].
  destruct (decide ("Date" = "Date")) as [_|?]; [|done]. cbn [obind].
  rewrite (suffixed_id _ _ _ ("Date" :: columns P)).
  2:{ intros c [->|Hc]%elem_of_cons Hne; [done|].
      destruct (Hno _ Hc). intros Hin. cases_elem Hin; done. }
  rewrite (suffixed_id _ _ _ ["Date"; "Volume"]).
  2:{ intros c Hc Hne. assert (c = "Volume") as -> by (cases_elem Hc; done).
      intros [?|Hc']%elem_of_cons; [done|]. by destruct (Hno _ Hc'). }
  unfold sort_values, set_index. cbn [columns rows index_name index_of app].
  destruct (decide ("Date" = "Date")) as [_|?]; [|done].
  cbn [obind columns rows index_name index_of].
  destruct (decide ("Date" = "Date")) as [_|?]; [|done].
  rewrite range_index_snd. reflexivity.
Qed.

Lemma sorted_frame_elem {X} (h : list cell → X) (i : nat) (J : list (list cell)) (x : X) :
  x ∈ map (λ r : row, h (snd r)) (merge_sort (key_le i) (range_index J))
  ↔ ∃ c, c ∈ J ∧ x = h c.
Proof.
  rewrite elem_of_map. setoid_rewrite merge_sort_Permutation. split.
  - intros (r & -> & Hr). exists (snd r). split; [|done].
    rewrite <- (range_index_snd J). apply elem_of_map. eauto.
  - intros (c & Hc & ->). rewrite <- (range_index_snd J) in Hc.
    apply elem_of_map in Hc as (r & -> & Hr). eauto.
Qed.

(** C1: when both fetches return and the price frame is indexed by Date, the
    combined frame is the full outer join on the date.  Date is its index and
    not one of its columns; the columns are those of the price frame followed
    by Volume; its dates are the dates of either frame, in ascending order;
    and its rows are exactly: for a date in both frames the price cells
    followed by the volume, for a date of the price frame alone the price
    cells followed by a missing value, for a date of the volume frame alone
    missing values followed by the volume. *)
Theorem combined_is_outer_join env (s e : option string) (w w1 w2 : World)
    (P V : DataFrame) :
  get_stock_data env s e w = (Ok P, w1) →
  get_daily_volume env s e w1 = (Ok V, w2) →
  index_name P = Some "Date" →
  ∃ C, get_combined_data env s e w = (Ok C, w2)
    ∧ index_name C = Some "Date"
    ∧ columns C = columns P ++ ["Volume"]
    ∧ ("Date" ∉ columns C)
    ∧ (∀ d, d ∈ labels C ↔ d ∈ labels P ∨ d ∈ column "Date" V)
    ∧ Sorted cell_le (labels C)
    ∧ (∀ d cells, (d, cells) ∈ rows C ↔
         (∃ p v, (d, p) ∈ rows P ∧ volume_on V d v ∧ cells = p ++ [v])
         ∨ (∃ p, (d, p) ∈ rows P ∧ (d ∉ column "Date" V) ∧ cells = p ++ [NA])
         ∨ (∃ v, (d ∉ labels P) ∧ volume_on V d v
                 ∧ cells = replicate (length (columns P)) NA ++ [v])).
Proof.
  intros EP EV Hidx.
  destruct (get_stock_data_inv _ _ _ _ _ _ EP) as (R1 & HP).
  destruct (get_daily_volume_inv _ _ _ _ _ _ EV) as (R2 & HV).
  apply getitem_shape in HP as (_ & Hsub & _ & _).
  apply volume_of_shape in HV as (_ & Hcols & Hshape & _).
  pose proof (join_on_date_frames P V Hidx (λ c, proj1 (Hsub c)) Hcols) as HJ.
  rewrite get_combined_data_run, EP.
  destruct (reset_index P) as [price_data|x]; [|done]. rewrite EV.
  cbn [obind] in HJ. rewrite HJ. clear HJ.
  set (L := map (λ r : row, fst r :: snd r) (rows P)).
  set (Rv := map snd (rows V)).
  set (J := join_rows 0 0 (S (length (columns P))) 2 L Rv).
  eexists. split; [reflexivity|]. cbn [index_name columns rows].
  (* the shape of the two sides *)
  assert (HL : ∀ l, l ∈ L ↔ ∃ d p, l = d :: p ∧ (d, p) ∈ rows P).
  { intros l. unfold L. rewrite elem_of_map. split.
    - intros ([d p] & -> & Hr). eauto.
    - intros (d & p & -> & Hr). by exists (d, p). }
  assert (HR : ∀ r, r ∈ Rv ↔ ∃ d v, r = [d; v] ∧ volume_on V d v).
  { intros r. unfold Rv, volume_on. rewrite elem_of_map. split.
    - intros ([k c] & -> & Hr). rewrite Forall_forall in Hshape.
      destruct (Hshape _ Hr) as (d & v & Hc). simpl in Hc. subst c.
      exists d, v. split; [done|]. by exists k.
    - intros (d & v & -> & k & Hk). by exists (k, [d; v]). }
  assert (HkL : ∀ d, d ∈ map (key_of 0) L ↔ d ∈ labels P).
  { intros d. unfold L, labels. rewrite map_map. done. }
  assert (HkR : ∀ d, d ∈ map (key_of 0) Rv ↔ d ∈ column "Date" V).
  { intros d. unfold Rv, column, cell_at. rewrite Hcols, map_map. done. }
  assert (HkR' : ∀ d, d ∈ column "Date" V ↔ ∃ v, volume_on V d v).
  { intros d. rewrite <- HkR, elem_of_map. split.
    - intros (r & -> & Hr). apply HR in Hr as (d & v & -> & Hv). eauto.
    - intros (v & Hv). exists [d; v]. split; [done|]. apply HR. eauto. }
  assert (HkL' : ∀ d, d ∈ labels P ↔ ∃ p, (d, p) ∈ rows P).
  { intros d. unfold labels. rewrite elem_of_map. split.
    - intros ([d' p] & -> & Hr). eauto.
    - intros (p & Hp). by exists (d, p). }
  (* the rows of the join, in terms of the two frames *)
  assert (Hrows : ∀ d cells,
    (∃ c, c ∈ J ∧ (d, cells) = (key_of 0 c, drop_at 0 c)) ↔
      (∃ p v, (d, p) ∈ rows P ∧ volume_on V d v ∧ cells = p ++ [v])
      ∨ (∃ p, (d, p) ∈ rows P ∧ (d ∉ column "Date" V) ∧ cells = p ++ [NA])
      ∨ (∃ v, (d ∉ labels P) ∧ volume_on V d v
              ∧ cells = replicate (length (columns P)) NA ++ [v])).
  { intros d cells. unfold J. setoid_rewrite join_rows_elem. split.
    - intros (c & [(l & r & Hl & Hr & Hk & ->)|[(l & Hl & Hk & ->)|(r & Hr & Hk & ->)]] & Hc).
      + apply HL in Hl as (d0 & p & -> & Hp). apply HR in Hr as (d1 & v & -> & Hv).
        cbn in Hk, Hc. subst d1. injection Hc as -> ->. left. eauto.
      + apply HL in Hl as (d0 & p & -> & Hp). rewrite HkR in Hk.
        cbn in Hk, Hc. injection Hc as -> ->. right; left. eauto.
      + apply HR in Hr as (d1 & v & -> & Hv). rewrite HkL in Hk.
        cbn in Hk, Hc. injection Hc as -> ->. right; right. eauto.
    - intros [(p & v & Hp & Hv & ->)|[(p & Hp & Hk & ->)|(v & Hk & Hv & ->)]].
      + exists ((d :: p) ++ drop_at 0 [d; v]). split; [|done].
        left. exists (d :: p), [d; v].
        split; [apply HL; eauto|]. split; [apply HR; eauto|]. done.
      + exists ((d :: p) ++ replicate (2 - 1) NA). split; [|done].
        right; left. exists (d :: p).
        split; [apply HL; eauto|]. split; [|done]. by rewrite HkR.
      + exists ((<[0%nat := key_of 0 [d; v]]> (replicate (S (length (columns P))) NA))
                ++ drop_at 0 [d; v]). split; [|done].
        right; right. exists [d; v].
        split; [apply HR; eauto|]. split; [|done]. by rewrite HkL. }
  split; [done|]. split; [done|]. split; [|split; [|split]].
  - intros [Hin|Hin%list_elem_of_singleton]%elem_of_app; [|done].
    apply Hsub in Hin. cases_elem Hin; done.
  - intros d. unfold labels. cbn [rows]. rewrite map_map. cbn [fst].
    rewrite (sorted_frame_elem (key_of 0)).
    unfold J. setoid_rewrite join_rows_elem. rewrite HkL', HkR'. split.
    + intros (c & [(l & r & Hl & Hr & Hk & ->)|[(l & Hl & Hk & ->)|(r & Hr & Hk & ->)]] & ->).
      * apply HL in Hl as (d0 & p & -> & Hp). left. eauto.
      * apply HL in Hl as (d0 & p & -> & Hp). left. eauto.
      * apply HR in Hr as (d1 & v & -> & Hv). right. eauto.
    + intros Hd.
      destruct (decide (d ∈ labels P)) as [HinP|HnP].
      * apply HkL' in HinP as (p & Hp).
        destruct (decide (d ∈ column "Date" V)) as [HinV|HnV].
        -- apply HkR' in HinV as (v & Hv).
           exists ((d :: p) ++ drop_at 0 [d; v]). split; [|done].
           left. exists (d :: p), [d; v].
           split; [apply HL; eauto|]. split; [apply HR; eauto|]. done.
        -- exists ((d :: p) ++ replicate (2 - 1) NA). split; [|done].
           right; left. exists (d :: p).
           split; [apply HL; eauto|]. split; [|done]. by rewrite HkR.
      * destruct Hd as [(p & Hp)|(v & Hv)]; [destruct HnP; apply HkL'; eauto|].
        exists ((<[0%nat := key_of 0 [d; v]]> (replicate (S (length (columns P))) NA))
                ++ drop_at 0 [d; v]). split; [|done].
        right; right. exists [d; v].
        split; [apply HR; eauto|]. split; [|done]. by rewrite HkL.
  - unfold labels. cbn [rows]. rewrite map_map. cbn [fst].
    change (map ?f ?l) with (f <$> l).
    apply (Sorted_fmap _ (key_le 0) cell_le); [by intros r1 r2|].
    apply Sorted_merge_sort, _.
  - intros d cells. rewrite <- Hrows.
    apply (sorted_frame_elem (λ c, (key_of 0 c, drop_at 0 c))).
Qed.

(** The premises of the theorem hold whenever the provider keeps to its
    contract: both fetches return, and the price frame is indexed by Date. *)
Lemma fetches_of_daily_bars env (s e : option string) (w : World) (R1 R2 : DataFrame) :
  clock_ok env → daily_bars R1 → daily_bars R2 →
  history env (request_of env s e w) (length (requests w)) = Ok R1 →
  history env (request_of env s e (asked (request_of env s e w) (ticked w)))
    (S (length (requests w))) = Ok R2 →
  ∃ P V w1 w2,
    get_stock_data env s e w = (Ok P, w1)
    ∧ get_daily_volume env s e w1 = (Ok V, w2)
    ∧ index_name P = Some "Date"
    ∧ columns P = ["Open"; "High"; "Low"; "Close"]
    ∧ labels P = labels R1
    ∧ column "Date" V = labels R2.
Proof.
  intros Hclock Hb1 Hb2 H1 H2.
  pose proof Hb1 as (Hi1 & Hnd1 & _). pose proof (daily_bars_fields _ Hb1) as [Hall1 _].
  pose proof Hb2 as (Hi2 & Hnd2 & _). pose proof (daily_bars_fields _ Hb2) as [_ Hvol2].
  do 4 eexists. split; [|split].
  - rewrite get_stock_data_run by done. cbv zeta. rewrite H1. cbn [obind].
    unfold prices_of. rewrite getitem_NoDup by done. reflexivity.
  - rewrite get_daily_volume_run by done. cbv zeta.
    replace (length (requests (asked (request_of env s e w) (ticked w))))
      with (S (length (requests w))) by (cbn; rewrite length_app; cbn; lia).
    rewrite H2. cbn [obind].
    rewrite volume_of_NoDup by (try done; by rewrite Hi2). reflexivity.
  - cbn [index_name columns]. split; [done|]. split; [done|]. split.
    + unfold labels. cbn [rows]. by rewrite map_map.
    + unfold column, labels. cbn [rows]. unfold range_index.
      rewrite (map_imap_ext _ _ (key_of 0)) by done. by rewrite map_map.
Qed.

Lemma combined_is_outer_join_witness :
  ∃ C, fst (get_combined_data Sample.env_skew None None (Sample.w0 "TSLA")) = Ok C
    ∧ index_name C = Some "Date"
    ∧ columns C = ["Open"; "High"; "Low"; "Close"; "Volume"]
    ∧ Sorted cell_le (labels C)
    ∧ rows C = [(Stamp 1, [Num 10; Num 11; Num 9; Num 10; NA]);
                (Stamp 2, [Num 20; Num 21; Num 19; Num 20; Num 200]);
                (Stamp 3, [Num 30; Num 31; Num 29; Num 30; Num 300]);
                (Stamp 4, [NA; NA; NA; NA; Num 400])].
Proof.
  destruct (combined_is_outer_join Sample.env_skew None None (Sample.w0 "TSLA")
              (snd (get_stock_data Sample.env_skew None None (Sample.w0 "TSLA")))
              (snd (get_daily_volume Sample.env_skew None None
                      (snd (get_stock_data Sample.env_skew None None (Sample.w0 "TSLA")))))
              {| index_name := Some "Date";
                 columns := ["Open"; "High"; "Low"; "Close"];
                 rows := [(Stamp 1, [Num 10; Num 11; Num 9; Num 10]);
                          (Stamp 2, [Num 20; Num 21; Num 19; Num 20]);
                          (Stamp 3, [Num 30; Num 31; Num 29; Num 30])] |}
              {| index_name := None;
                 columns := ["Date"; "Volume"];
                 rows := [(Num 0, [Stamp 2; Num 200]);
                          (Num 1, [Stamp 3; Num 300]);
                          (Num 2, [Stamp 4; Num 400])] |})
    as (C & HC & Hidx & Hcols & _ & _ & Hsorted & _).
  - vm_compute. reflexivity.
  - vm_compute. reflexivity.
  - reflexivity.
  - exists C. rewrite HC. split; [reflexivity|]. split; [exact Hidx|].
    split; [exact Hcols|]. split; [exact Hsorted|].
    vm_compute in HC. injection HC as <-. reflexivity.
Defined.

(** The dates of the sample are days, so the order of the index is the order
    of the calendar. *)
Example combined_sample_dates :
  ∃ C, fst (get_combined_data Sample.env_skew None None (Sample.w0 "TSLA")) = Ok C
    ∧ labels C = [Stamp 1; Stamp 2; Stamp 3; Stamp 4].
Proof. eexists. split; vm_compute; reflexivity. Qed.

(** When the provider names its index otherwise, the price frame has no Date
    column to join on, and the call raises. *)
Example combined_needs_date_index :
  fst (get_combined_data
         (mk_env (clock Sample.env0)
            (λ _ _, Ok (mk_frame (Some "Datetime") Sample.provider_columns Sample.may)))
         None None (Sample.w0 "TSLA"))
  = Raise (KeyError "Date").
Proof. vm_compute. reflexivity. Qed.

(** * More about the methods

    What the fetches accept and how they fail, what they ask of the clock and
    of the provider, and what the join does with repeated dates. *)

(** ** Which answers the fetches accept *)

Lemma getitem_first_missing (names : list string) (df : DataFrame) :
  ¬ Forall (λ n, n ∈ columns df) names →
  ∃ n, n ∈ names ∧ (n ∉ columns df) ∧ getitem names df = Raise (KeyError n).
Proof.
  intros Hnot. unfold getitem.
  destruct (list_find _ names) as [[i n]|] eqn:E.
  - apply list_find_Some in E as (Hi & Hn & _). exists n.
    split; [by eapply list_elem_of_lookup_2|done].
  - apply list_find_None in E. exfalso. apply Hnot.
    eapply Forall_impl; [exact E|]. intros n Hn. simpl in Hn.
    destruct (decide (n ∈ columns df)); [done|]. by destruct Hn.
Qed.

Lemma positions_nil_iff (name : string) (cols : list string) :
  positions name cols = [] ↔ name ∉ cols.
Proof.
  split; [|apply positions_not_elem].
  intros Hnil Hin. apply index_of_elem in Hin as [i Hi].
  apply index_of_Some, positions_lookup in Hi. rewrite Hnil in Hi.
  by apply elem_of_nil in Hi.
Qed.

(** The steps of [volume_of], case by case. *)
Lemma volume_of_cases (R : DataFrame) :
  match decide ("Volume" ∈ columns R) with
  | right _ => volume_of R = Raise (KeyError "Volume")
  | left _ =>
      if decide (index_name R = Some "Volume")
      then volume_of R = Raise (ValueError "cannot insert Volume, already exists")
      else if decide (length (positions "Volume" (columns R)) = 1%nat)
           then ∃ V, volume_of R = Ok V
           else volume_of R = Raise (ValueError "Length mismatch")
  end.
Proof.
  destruct (decide ("Volume" ∈ columns R)) as [Hin|Hnin].
  2:{ unfold volume_of.
      destruct (getitem_first_missing ["Volume"] R) as (n & Hn & _ & ->).
      - by intros [? _]%Forall_cons.
      - apply list_elem_of_singleton in Hn. by subst n. }
  assert (Hall : Forall (λ n, n ∈ columns R) ["Volume"]) by by apply Forall_singleton.
  unfold volume_of. pose proof (getitem_ok _ _ Hall) as Hsel.
  destruct (getitem ["Volume"] R) as [sel|] eqn:E; [|done].
  pose proof (getitem_shape _ _ _ E) as (Hidx & Hcols & _ & _).
  assert (Hlen : length (columns sel) = length (positions "Volume" (columns R))).
  { injection Hsel as ->. cbn [columns flat_map]. by rewrite take_length, app_nil_r. }
  cbn [obind]. unfold reset_index. rewrite Hidx.
  assert (Hidxcol : "index" ∉ columns sel).
  { intros Hc%Hcols. by apply list_elem_of_singleton in Hc. }
  destruct (decide (index_name R = Some "Volume")) as [Hv|Hv].
  - rewrite Hv. destruct (decide ("Volume" ∈ columns sel)) as [_|Hn]; [done|].
    destruct Hn. apply Hcols. left.
  - set (name := match index_name R with
                 | Some n => n
                 | None => if decide ("index" ∈ columns sel) then "level_0" else "index"
                 end).
    assert (Hname : name ∉ columns sel).
    { intros Hc%Hcols. apply list_elem_of_singleton in Hc. unfold name in Hc.
      destruct (index_name R) as [n|]; [by subst n|].
      by destruct (decide ("index" ∈ columns sel)). }
    destruct (decide (length (positions "Volume" (columns R)) = 1%nat)) as [H1|H1];
      destruct (decide (name ∈ columns sel)) as [?|_]; try done;
      unfold set_columns; cbn [obind columns length]; rewrite Hlen.
    + rewrite decide_True by (by rewrite H1). eauto.
    + rewrite decide_False by (intros [= ?]; done). done.
Qed.

(** X1: the price fetch returns a frame exactly when the provider's answer has
    the four price columns; otherwise it raises [KeyError] for one of the four
    that the answer lacks.  The request has been made in either case. *)
Theorem price_fetch_needs_its_columns env (s e : option string) (w : World)
    (R : DataFrame) :
  clock_ok env →
  history env (request_of env s e w) (length (requests w)) = Ok R →
  ((∃ P, fst (get_stock_data env s e w) = Ok P)
   ↔ Forall (λ c, c ∈ columns R) ["Open"; "High"; "Low"; "Close"])
  ∧ (¬ Forall (λ c, c ∈ columns R) ["Open"; "High"; "Low"; "Close"] →
     ∃ n, n ∈ ["Open"; "High"; "Low"; "Close"] ∧ (n ∉ columns R)
          ∧ fst (get_stock_data env s e w) = Raise (KeyError n))
  ∧ requests (snd (get_stock_data env s e w)) = requests w ++ [request_of env s e w].
Proof.
  intros Hclock HR. rewrite get_stock_data_run by done. cbv zeta. rewrite HR.
  cbn [fst snd obind asked requests]. unfold prices_of. split; [|split; [|done]].
  - split.
    + intros [P HP].
      destruct (decide (Forall (λ c, c ∈ columns R) ["Open"; "High"; "Low"; "Close"]))
        as [|Hnot]; [done|].
      apply getitem_first_missing in Hnot as (n & _ & _ & Hn). congruence.
    + intros Hall. rewrite getitem_ok by done. eauto.
  - apply getitem_first_missing.
Qed.

Lemma price_fetch_needs_its_columns_witness :
  ∃ n, n ∈ ["Open"; "High"; "Low"; "Close"]
       ∧ fst (get_stock_data
                (mk_env (clock Sample.env0)
                   (λ _ _, Ok (mk_frame (Some "Date") ["Open"; "Close"; "Volume"] [])))
                None None (Sample.w0 "TSLA")) = Raise (KeyError n).
Proof.
  destruct (price_fetch_needs_its_columns
              (mk_env (clock Sample.env0)
                 (λ _ _, Ok (mk_frame (Some "Date") ["Open"; "Close"; "Volume"] [])))
              None None (Sample.w0 "TSLA")
              (mk_frame (Some "Date") ["Open"; "Close"; "Volume"] []))
    as (_ & H & _).
  - sample_clock.
  - reflexivity.
  - destruct H as (n & Hn & _ & E).
    + intros Hall. apply Forall_cons in Hall as [_ Hall].
      apply Forall_cons in Hall as [Hhigh _]. cases_elem Hhigh; discriminate.
    + exists n. split; [exact Hn|exact E].
Defined.

(** X2: the volume fetch returns a frame exactly when the answer has one column
    called Volume and its index is not called Volume.  Without such a column
    it raises [KeyError]; with an index called Volume, [reset_index] raises
    [ValueError]; with several Volume columns the assignment of the two
    column labels raises [ValueError]. *)
Theorem volume_fetch_outcomes env (s e : option string) (w : World) (R : DataFrame) :
  clock_ok env →
  history env (request_of env s e w) (length (requests w)) = Ok R →
  ((∃ V, fst (get_daily_volume env s e w) = Ok V)
   ↔ length (positions "Volume" (columns R)) = 1%nat ∧ index_name R ≠ Some "Volume")
  ∧ ("Volume" ∉ columns R →
     fst (get_daily_volume env s e w) = Raise (KeyError "Volume"))
  ∧ ("Volume" ∈ columns R → index_name R = Some "Volume" →
     ∃ msg, fst (get_daily_volume env s e w) = Raise (ValueError msg))
  ∧ ("Volume" ∈ columns R → index_name R ≠ Some "Volume" →
     length (positions "Volume" (columns R)) ≠ 1%nat →
     ∃ msg, fst (get_daily_volume env s e w) = Raise (ValueError msg)).
Proof.
  intros Hclock HR. rewrite get_daily_volume_run by done. cbv zeta. rewrite HR.
  cbn [fst obind]. pose proof (volume_of_cases R) as Hc.
  destruct (decide ("Volume" ∈ columns R)) as [Hin|Hnin].
  - destruct (decide (index_name R = Some "Volume")) as [Hv|Hv].
    + rewrite Hc. split; [|split; [done|split; [eauto|done]]].
      split; [by intros [V ?]|by intros [_ ?]].
    + destruct (decide (length (positions "Volume" (columns R)) = 1%nat)) as [H1|H1].
      * split; [by split|]. split; [done|]. split; done.
      * rewrite Hc. split; [|split; [done|split; [done|eauto]]].
        split; [by intros [V ?]|by intros [? _]].
  - rewrite Hc. split; [|split; [done|split; done]].
    split; [by intros [V ?]|]. intros [H1 _].
    apply positions_nil_iff in Hnin. by rewrite Hnin in H1.
Qed.

Lemma volume_fetch_outcomes_witness :
  ∃ msg, fst (get_daily_volume
                (mk_env (clock Sample.env0)
                   (λ _ _, Ok (mk_frame (Some "Date") ["Volume"; "Close"; "Volume"] [])))
                None None (Sample.w0 "TSLA")) = Raise (ValueError msg).
Proof.
  destruct (volume_fetch_outcomes
              (mk_env (clock Sample.env0)
                 (λ _ _, Ok (mk_frame (Some "Date") ["Volume"; "Close"; "Volume"] [])))
              None None (Sample.w0 "TSLA")
              (mk_frame (Some "Date") ["Volume"; "Close"; "Volume"] []))
    as (_ & _ & _ & H).
  - sample_clock.
  - reflexivity.
  - apply H; [decide_it|discriminate|vm_compute; discriminate].
Defined.

Lemma join_needs_date_index (P V price_data : DataFrame) :
  (∀ c, c ∈ columns P → c ∈ ["Open"; "High"; "Low"; "Close"]) →
  index_name P ≠ Some "Date" →
  reset_index P = Ok price_data →
  join_on_date price_data V = Raise (KeyError "Date").
Proof.
  intros Hsub Hidx. unfold reset_index.
  set (name := match index_name P with
               | Some n => n
               | None => if decide ("index" ∈ columns P) then "level_0" else "index"
               end).
  assert (Hname : name ≠ "Date").
  { unfold name. destruct (index_name P) as [n|]; [congruence|].
    by destruct (decide ("index" ∈ columns P)). }
  destruct (decide (name ∈ columns P)); [done|]. intros [= <-].
  unfold join_on_date, merge_outer. cbn [columns index_of].
  rewrite decide_False by done.
  assert (Hnone : index_of "Date" (columns P) = None).
  { apply index_of_None. intros Hin%Hsub. cases_elem Hin; done. }
  rewrite Hnone. reflexivity.
Qed.

Lemma asked_length rq w :
  length (requests (asked rq (ticked w))) = S (length (requests w)).
Proof. cbn. rewrite length_app. cbn. lia. Qed.



(** ** The clock and the provider *)

Section DayOfYear.
Open Scope Z_scope.

Lemma day_of_year_bounds (y m d : Z) :
  1 ≤ m ≤ 12 → 1 ≤ d ≤ _days_in_month y m →
  1 ≤ _days_before_month y m + d ≤ 365 + (if _is_leap y then 1 else 0).
Proof.
  intros Hm Hd. unfold _days_before_month, _days_in_month in *.
  assert (Hcases : m = 1 ∨ m = 2 ∨ m = 3 ∨ m = 4 ∨ m = 5 ∨ m = 6 ∨ m = 7
                   ∨ m = 8 ∨ m = 9 ∨ m = 10 ∨ m = 11 ∨ m = 12) by lia.
  destruct (_is_leap y);
    repeat (destruct Hcases as [Hcases|Hcases]); subst m;
    repeat match goal with
           | H : context [table ?tb ?k] |- _ =>
               let v := eval vm_compute in (table tb k) in
               change (table tb k) with v in H
           | |- context [table ?tb ?k] =>
               let v := eval vm_compute in (table tb k) in
               change (table tb k) with v
           end;
    cbn in Hd |- *; lia.
Qed.

Lemma first_year_ordinal (t : datetime) :
  valid_date t → year t = 1 → 1 ≤ toordinal t ≤ 365.
Proof.
  intros (_ & Hm & Hd) Hy.
  pose proof (day_of_year_bounds _ _ _ Hm Hd) as Hb.
  unfold toordinal, _ymd2ord. rewrite Hy in *.
  change (_days_before_year 1) with 0. change (_is_leap 1) with false in Hb. lia.
Qed.
End DayOfYear.

(** X4: the default dates are computed before the arguments are looked at.  When
    the clock shows a day of the year 1, [now - timedelta(days=365)] is out of
    range: every method raises [OverflowError], with explicit bounds too, and
    the provider is not asked. *)
Theorem first_year_clock_overflows env (s e : option string) (w : World) :
  valid_date (clock env (S (ticks w))) → year (clock env (S (ticks w))) = 1%Z →
  get_stock_data env s e w = (Raise OverflowError, ticked w)
  ∧ get_daily_volume env s e w = (Raise OverflowError, ticked w)
  ∧ get_combined_data env s e w = (Raise OverflowError, ticked w)
  ∧ requests (ticked w) = requests w.
Proof.
  intros Hv Hy. pose proof (first_year_ordinal _ Hv Hy) as Hord.
  assert (Hsub : sub_days (clock env (S (ticks w))) 365 = Raise OverflowError).
  { unfold sub_days. replace (0 <? _)%Z with false; [done|].
    symmetry. apply Z.ltb_ge. lia. }
  assert (Hdef : _get_default_dates env w = (Raise OverflowError, ticked w)).
  { unfold _get_default_dates. rewrite bind_run. cbn [now].
    rewrite bind_run. cbn [now ticks self requests].
    rewrite bind_lift, Hsub. reflexivity. }
  assert (H1 : get_stock_data env s e w = (Raise OverflowError, ticked w)).
  { unfold get_stock_data. by rewrite (bind_raise _ _ _ _ _ Hdef). }
  split; [done|]. split; [|split; [|done]].
  - unfold get_daily_volume. by rewrite (bind_raise _ _ _ _ _ Hdef).
  - by rewrite get_combined_data_run, H1.
Qed.

Lemma first_year_clock_overflows_witness :
  fst (get_stock_data
         (mk_env (Sample.fixed_clock (Sample.noon 1 6 1)) (history Sample.env0))
         (Some "2024-05-01") (Some "2024-12-29") (Sample.w0 "TSLA"))
  = Raise OverflowError.
Proof.
  pose proof (first_year_clock_overflows
                (mk_env (Sample.fixed_clock (Sample.noon 1 6 1)) (history Sample.env0))
                (Some "2024-05-01") (Some "2024-12-29") (Sample.w0 "TSLA")) as H.
  destruct H as (H & _).
  - repeat split; vm_compute; discriminate.
  - reflexivity.
  - rewrite H. reflexivity.
Defined.

Lemma request_of_fixed_clock env s e w w' :
  (∀ k, clock env k = clock env 0) → self w' = self w →
  request_of env s e w' = request_of env s e w.
Proof.
  intros Hfix Hself. unfold request_of, default_start, default_end.
  rewrite Hself, (Hfix (S (ticks w'))), (Hfix (ticks w')),
    (Hfix (S (ticks w))), (Hfix (ticks w)). reflexivity.
Qed.

(** X5: [get_combined_data] fetches the same history twice.  When the provider
    answers the first request with daily bars, the clock is read four times
    and two requests are made, both for the ticker of the object; with
    explicit non-empty bounds, or with a clock that stands still, the second
    request is the first one again. *)
Theorem combined_asks_twice env (s e : option string) (w : World) (R1 : DataFrame) :
  clock_ok env →
  history env (request_of env s e w) (length (requests w)) = Ok R1 →
  daily_bars R1 →
  requests (snd (get_combined_data env s e w))
  = requests w ++ [request_of env s e w;
                   request_of env s e (asked (request_of env s e w) (ticked w))]
  ∧ ticks (snd (get_combined_data env s e w)) = (ticks w + 4)%nat
  ∧ req_ticker (request_of env s e (asked (request_of env s e w) (ticked w)))
    = ticker (_ticker (self w))
  ∧ (∀ s' e', s = Some s' → e = Some e' → s' ≠ EmptyString → e' ≠ EmptyString →
       requests (snd (get_combined_data env s e w))
       = requests w ++ [mk_request (ticker (_ticker (self w))) s' e';
                        mk_request (ticker (_ticker (self w))) s' e'])
  ∧ ((∀ k, clock env k = clock env 0) →
       requests (snd (get_combined_data env s e w))
       = requests w ++ [request_of env s e w; request_of env s e w]).
Proof.
  intros Hclock H1 Hb.
  pose proof Hb as (Hi1 & Hnd1 & _). pose proof (daily_bars_fields _ Hb) as [Hall1 _].
  assert (Hreq : requests (snd (get_combined_data env s e w))
            = requests w ++ [request_of env s e w;
                request_of env s e (asked (request_of env s e w) (ticked w))]
          ∧ ticks (snd (get_combined_data env s e w)) = (ticks w + 4)%nat).
  { rewrite get_combined_data_run, get_stock_data_run by done. cbv zeta.
    rewrite H1. cbn [obind]. unfold prices_of. rewrite getitem_NoDup by done.
    unfold reset_index. cbn [index_name columns]. rewrite Hi1.
    rewrite decide_False by (intros Hin; cases_elem Hin; done).
    rewrite get_daily_volume_run by done. cbv zeta.
    destruct (obind _ volume_of); cbn; rewrite <- app_assoc;
      (split; [reflexivity|lia]). }
  destruct Hreq as [Hreq Hticks]. split; [done|]. split; [done|].
  split; [reflexivity|]. split.
  - intros s' e' -> -> Hs He. rewrite Hreq.
    by rewrite request_of_asked, request_of_explicit.
  - intros Hfix. rewrite Hreq.
    by rewrite (request_of_fixed_clock env s e w
                  (asked (request_of env s e w) (ticked w))).
Qed.

Lemma combined_asks_twice_witness :
  requests (snd (get_combined_data Sample.env0 (Some "2024-05-01") (Some "2024-12-29")
                   (Sample.w0 "TSLA")))
  = [mk_request "TSLA" "2024-05-01" "2024-12-29";
     mk_request "TSLA" "2024-05-01" "2024-12-29"].
Proof.
  pose proof (combined_asks_twice Sample.env0 (Some "2024-05-01") (Some "2024-12-29")
                (Sample.w0 "TSLA") (Sample.bars Sample.may)) as H.
  destruct H as (_ & _ & _ & H & _).
  - sample_clock.
  - reflexivity.
  - split; [reflexivity|]. split; decide_it.
  - apply (H "2024-05-01" "2024-12-29"); [reflexivity|reflexivity|discriminate|discriminate].
Defined.

(** ** The default window and the calendar year *)

Section Window.
Open Scope Z_scope.

Lemma days_before_year_succ (y : Z) :
  _days_before_year (y + 1)
  = _days_before_year y + 365 + (if _is_leap y then 1 else 0).
Proof.
  unfold _days_before_year, _is_leap. cbv zeta.
  replace (y + 1 - 1) with y by lia.
  repeat match goal with
         | |- context [?x mod ?k =? ?v] => destruct (Z.eqb_spec (x mod k) v)
         end; cbn [andb orb negb]; Z.div_mod_to_equations; lia.
Qed.

Lemma days_before_year_mono (y y' : Z) :
  y ≤ y' → _days_before_year y ≤ _days_before_year y'.
Proof. intros H. unfold _days_before_year. cbv zeta. Z.div_mod_to_equations. lia. Qed.

Lemma month_days_stack (y m m' : Z) :
  1 ≤ m → m < m' → m' ≤ 12 →
  _days_before_month y m + _days_in_month y m ≤ _days_before_month y m'.
Proof.
  intros H1 Hlt H12. unfold _days_before_month, _days_in_month.
  assert (Hm : m = 1 ∨ m = 2 ∨ m = 3 ∨ m = 4 ∨ m = 5 ∨ m = 6 ∨ m = 7
               ∨ m = 8 ∨ m = 9 ∨ m = 10 ∨ m = 11) by lia.
  assert (Hm' : m' = 2 ∨ m' = 3 ∨ m' = 4 ∨ m' = 5 ∨ m' = 6 ∨ m' = 7
                ∨ m' = 8 ∨ m' = 9 ∨ m' = 10 ∨ m' = 11 ∨ m' = 12) by lia.
  destruct (_is_leap y);
    repeat (destruct Hm as [Hm|Hm]); subst m;
    repeat (destruct Hm' as [Hm'|Hm']); subst m'; try lia;
    vm_compute; discriminate.
Qed.

(** [toordinal] tells dates apart. *)
Lemma ymd2ord_inj (y m d y' m' d' : Z) :
  1 ≤ m ≤ 12 → 1 ≤ d ≤ _days_in_month y m →
  1 ≤ m' ≤ 12 → 1 ≤ d' ≤ _days_in_month y' m' →
  _ymd2ord y m d = _ymd2ord y' m' d' →
  y = y' ∧ m = m' ∧ d = d'.
Proof.
  intros Hm Hd Hm' Hd' E. unfold _ymd2ord in E.
  pose proof (day_of_year_bounds _ _ _ Hm Hd) as Hb.
  pose proof (day_of_year_bounds _ _ _ Hm' Hd') as Hb'.
  assert (Hy : y = y').
  { destruct (Z.lt_trichotomy y y') as [Hlt|[?|Hlt]]; [|done|]; exfalso.
    - pose proof (days_before_year_succ y).
      pose proof (days_before_year_mono (y + 1) y' ltac:(lia)). lia.
    - pose proof (days_before_year_succ y').
      pose proof (days_before_year_mono (y' + 1) y ltac:(lia)). lia. }
  subst y'. split; [done|].
  assert (Hmm : m = m').
  { destruct (Z.lt_trichotomy m m') as [Hlt|[?|Hlt]]; [|done|]; exfalso.
    - pose proof (month_days_stack y m m' ltac:(lia) Hlt ltac:(lia)). lia.
    - pose proof (month_days_stack y m' m ltac:(lia) Hlt ltac:(lia)). lia. }
  subst m'. split; [done|lia].
Qed.

(** [fromordinal (toordinal t)] is the date of [t]. *)
Lemma ord2ymd_ymd2ord (y m d : Z) :
  1 ≤ m ≤ 12 → 1 ≤ d ≤ _days_in_month y m → 1 ≤ _ymd2ord y m d →
  _ord2ymd (_ymd2ord y m d) = (y, m, d).
Proof.
  intros Hm Hd Hn.
  destruct (ord2ymd_spec _ Hn) as (y' & m' & d' & E & Hord & Hm' & Hd' & _).
  destruct (ymd2ord_inj _ _ _ _ _ _ Hm' Hd' Hm Hd Hord) as (-> & -> & ->). done.
Qed.

Lemma same_day_last_year_valid (t : datetime) :
  valid_date t → 2 ≤ year t → ¬ (month t = 2 ∧ day t = 29) →
  valid_date (same_day_last_year t).
Proof.
  intros (Hy & Hm & Hd) H2 Hfeb. unfold valid_date, same_day_last_year. cbn.
  split; [lia|]. split; [done|]. unfold _days_in_month in *.
  destruct (Z.eqb_spec (month t) 2) as [E|E]; cbn [andb] in *; [|done].
  rewrite E in *. change (table _DAYS_IN_MONTH 2) with 28 in *.
  destruct (_is_leap (year t)), (_is_leap (year t - 1)); lia.
Qed.

Lemma toordinal_last_year (t : datetime) :
  toordinal t - 365
  = toordinal (same_day_last_year t) + (if feb29_between t then 1 else 0).
Proof.
  unfold toordinal, same_day_last_year, feb29_between, _ymd2ord, _days_before_month.
  cbn [year month day].
  pose proof (days_before_year_succ (year t - 1)) as Hs.
  replace (year t - 1 + 1) with (year t) in Hs by lia. rewrite Hs.
  destruct (2 <? month t); cbn [andb];
    destruct (_is_leap (year t)), (_is_leap (year t - 1)); lia.
Qed.
End Window.



(** A window without a 29 February. *)
Example window_without_leap_day :
  requests (snd (get_stock_data
                   (mk_env (Sample.fixed_clock (Sample.noon 2023 6 15)) (history Sample.env0))
                   None None (Sample.w0 "TSLA")))
  = [mk_request "TSLA" "2022-06-15" "2023-06-15"].
Proof. vm_compute. reflexivity. Qed.

(** ** Repeated dates *)

Section Counting.
Context {A : Type}.
Implicit Types (l : list A) (f : A → cell).

Lemma occurrences_map f l d :
  occurrences d (map f l) = length (filter (λ x, f x = d) l).
Proof.
  unfold occurrences. induction l as [|x l IH]; [done|]. cbn [map].
  rewrite !filter_cons. destruct (decide (f x = d)); cbn [length]; by rewrite IH.
Qed.

Lemma filter_all (P : A → Prop) `{∀ x, Decision (P x)} l :
  Forall P l → filter P l = l.
Proof.
  induction 1 as [|x l Hx _ IH]; [done|]. by rewrite filter_cons_True, IH.
Qed.

Lemma filter_none (P : A → Prop) `{∀ x, Decision (P x)} l :
  Forall (λ x, ¬ P x) l → filter P l = [].
Proof.
  induction 1 as [|x l Hx _ IH]; [done|]. by rewrite filter_cons_False.
Qed.

Lemma length_filter_Permutation (P : A → Prop) `{∀ x, Decision (P x)} l1 l2 :
  l1 ≡ₚ l2 → length (filter P l1) = length (filter P l2).
Proof. intros Hp. by rewrite Hp. Qed.
End Counting.

Lemma occurrences_Permutation (d : cell) (l1 l2 : list cell) :
  l1 ≡ₚ l2 → occurrences d l1 = occurrences d l2.
Proof. intros Hp. unfold occurrences. by rewrite Hp. Qed.

Lemma occurrences_zero (d : cell) (l : list cell) : occurrences d l = 0%nat ↔ d ∉ l.
Proof.
  unfold occurrences. rewrite length_zero_iff_nil. split.
  - intros Hnil Hin. by eapply (filter_nil_not_elem_of _ _ d Hnil).
  - intros Hnot. apply filter_none, Forall_forall. intros x Hx ->. done.
Qed.

Lemma occurrences_NoDup (l : list cell) :
  (∀ d, occurrences d l ≤ 1)%nat → NoDup l.
Proof.
  induction l as [|x l IH]; intros Hocc; [constructor|].
  constructor.
  - intros Hin. specialize (Hocc x). unfold occurrences in Hocc.
    rewrite filter_cons_True in Hocc by done. cbn [length] in Hocc.
    assert (Hz : occurrences x l = 0%nat) by (unfold occurrences; lia).
    by apply occurrences_zero in Hz.
  - apply IH. intros d. specialize (Hocc d). unfold occurrences in *.
    rewrite filter_cons in Hocc. destruct (decide (x = d)); cbn [length] in Hocc; lia.
Qed.

Lemma NoDup_occurrences (l : list cell) (d : cell) :
  NoDup l → (occurrences d l ≤ 1)%nat.
Proof.
  induction 1 as [|x l Hx _ IH]; [unfold occurrences; cbn; lia|].
  unfold occurrences in *.
  rewrite filter_cons. destruct (decide (x = d)) as [->|]; [|done].
  apply occurrences_zero in Hx. unfold occurrences in Hx. cbn [length]. lia.
Qed.

Lemma join_rows_blocks (i j nl nr : nat) (L R : list (list cell)) :
  join_rows i j nl nr L R
  = flat_map (join_block i j nl nr L R)
      (join_keys (map (key_of i) L) (map (key_of j) R)).
Proof. reflexivity. Qed.

Lemma length_flat_map_pairs {A B C} (g : A → B → C) (ls : list A) (rs : list B) :
  length (flat_map (λ l, map (g l) rs) ls) = (length ls * length rs)%nat.
Proof.
  induction ls as [|l ls IH]; [done|]. cbn [flat_map length].
  rewrite length_app, length_map, IH. lia.
Qed.

Lemma join_block_length (i j nl nr : nat) (L R : list (list cell)) (k : cell) :
  length (join_block i j nl nr L R k)
  = join_count (occurrences k (map (key_of i) L)) (occurrences k (map (key_of j) R)).
Proof.
  rewrite !occurrences_map. unfold join_block. cbv zeta.
  destruct (filter (λ l, key_of i l = k) L) as [|l0 ls];
    destruct (filter (λ r, key_of j r = k) R) as [|r0 rs]; try done.
  - by rewrite length_map.
  - by rewrite length_map.
  - by rewrite length_flat_map_pairs.
Qed.

(** Every row of the block of [k] has the key [k], when the key is the first
    cell and the left rows have one. *)
Lemma join_block_keys (nl nr : nat) (L R : list (list cell)) (k : cell) :
  Forall (λ l, l ≠ []) L → (0 < nl)%nat →
  Forall (λ c, key_of 0 c = k) (join_block 0 0 nl nr L R k).
Proof.
  intros HL Hnl. unfold join_block. cbv zeta.
  assert (Hls : Forall (λ l, key_of 0 l = k ∧ l ≠ [])
                  (filter (λ l, key_of 0 l = k) L)).
  { apply Forall_forall. intros l [Hk Hl]%list_elem_of_filter.
    rewrite Forall_forall in HL. split; [done|by apply HL]. }
  destruct (filter (λ l, key_of 0 l = k) L) as [|l0 ls];
    destruct (filter (λ r, key_of 0 r = k) R) as [|r0 rs].
  - constructor.
  - apply Forall_forall. intros c (r & -> & _)%elem_of_map.
    destruct nl; [lia|]. reflexivity.
  - apply Forall_forall. intros c (l & -> & Hl)%elem_of_map.
    rewrite Forall_forall in Hls. destruct (Hls l Hl) as [Hk Hne].
    destruct l; [done|]. exact Hk.
  - apply Forall_forall. intros c (l & Hl & Hc)%elem_of_flat_map.
    apply elem_of_map in Hc as (r & -> & _).
    rewrite Forall_forall in Hls. destruct (Hls l Hl) as [Hk Hne].
    destruct l; [done|]. exact Hk.
Qed.

Lemma filter_flat_map_blocks (block : cell → list (list cell)) (ks : list cell) (d : cell) :
  NoDup ks → (∀ k, Forall (λ c, key_of 0 c = k) (block k)) →
  filter (λ c, key_of 0 c = d) (flat_map block ks)
  = if decide (d ∈ ks) then block d else [].
Proof.
  intros Hnd Hblock. induction Hnd as [|k ks Hk Hnd IH]; [done|].
  cbn [flat_map]. rewrite filter_app, IH.
  destruct (decide (k = d)) as [->|Hne].
  - rewrite filter_all by apply Hblock.
    rewrite decide_False by done. rewrite decide_True by left.
    by rewrite app_nil_r.
  - rewrite filter_none.
    2:{ eapply Forall_impl; [apply Hblock|]. intros c Hc. cbn. congruence. }
    destruct (decide (d ∈ ks)) as [Hin|Hnin].
    + by rewrite decide_True by (by right).
    + rewrite decide_False; [done|]. by intros [?|?]%elem_of_cons.
Qed.

(** How often a key occurs among the rows of the join. *)
Lemma join_rows_occurrences (nl nr : nat) (L R : list (list cell)) (d : cell) :
  Forall (λ l, l ≠ []) L → (0 < nl)%nat →
  occurrences d (map (key_of 0) (join_rows 0 0 nl nr L R))
  = join_count (occurrences d (map (key_of 0) L)) (occurrences d (map (key_of 0) R)).
Proof.
  intros HL Hnl. rewrite occurrences_map, join_rows_blocks.
  rewrite filter_flat_map_blocks;
    [|apply join_keys_NoDup|by intros k; apply join_block_keys].
  destruct (decide (d ∈ join_keys _ _)) as [Hin|Hnin].
  - apply join_block_length.
  - rewrite join_keys_elem in Hnin.
    assert (HnL : d ∉ map (key_of 0) L) by tauto.
    assert (HnR : d ∉ map (key_of 0) R) by tauto.
    apply occurrences_zero in HnL, HnR. by rewrite HnL, HnR.
Qed.

(** The frame that both theorems below take apart. *)
Lemma combined_frame env (s e : option string) (w w1 w2 : World) (P V : DataFrame) :
  get_stock_data env s e w = (Ok P, w1) →
  get_daily_volume env s e w1 = (Ok V, w2) →
  index_name P = Some "Date" →
  get_combined_data env s e w =
    (Ok {| index_name := Some "Date";
           columns := columns P ++ ["Volume"];
           rows := map (λ r : row, (key_of 0 (snd r), drop_at 0 (snd r)))
                     (merge_sort (key_le 0)
                        (range_index
                           (join_rows 0 0 (S (length (columns P))) 2
                              (map (λ r : row, fst r :: snd r) (rows P))
                              (map snd (rows V))))) |}, w2)
  ∧ map (key_of 0) (map (λ r : row, fst r :: snd r) (rows P)) = labels P
  ∧ map (key_of 0) (map snd (rows V)) = column "Date" V.
Proof.
  intros EP EV Hidx.
  destruct (get_stock_data_inv _ _ _ _ _ _ EP) as (R1 & HP).
  destruct (get_daily_volume_inv _ _ _ _ _ _ EV) as (R2 & HV).
  apply getitem_shape in HP as (_ & Hsub & _ & _).
  apply volume_of_shape in HV as (_ & Hcols & _ & _).
  pose proof (join_on_date_frames P V Hidx (λ c, proj1 (Hsub c)) Hcols) as HJ.
  rewrite get_combined_data_run, EP.
  destruct (reset_index P) as [price_data|x]; [|done]. rewrite EV.
  cbn [obind] in HJ. rewrite HJ. split; [done|]. split.
  - unfold labels. by rewrite map_map.
  - unfold column, cell_at. rewrite Hcols, map_map. done.
Qed.

Lemma join_count_le_1 (m n : nat) : (m ≤ 1 → n ≤ 1 → join_count m n ≤ 1)%nat.
Proof. destruct m as [|[|m]], n as [|[|n]]; cbn; lia. Qed.

(** X7: the combined frame has, for a date that the price frame has [m] times
    and the volume frame [n] times, [n] rows when [m] is 0, [m] rows when [n]
    is 0, and [m * n] rows otherwise: a date repeated on both sides is
    multiplied.  With dates that do not repeat in either frame, no date
    repeats in the combined frame. *)
Theorem combined_rows_per_date env (s e : option string) (w w1 w2 : World)
    (P V : DataFrame) :
  get_stock_data env s e w = (Ok P, w1) →
  get_daily_volume env s e w1 = (Ok V, w2) →
  index_name P = Some "Date" →
  ∃ C, get_combined_data env s e w = (Ok C, w2)
    ∧ (∀ d, occurrences d (labels C)
            = join_count (occurrences d (labels P)) (occurrences d (column "Date" V)))
    ∧ (NoDup (labels P) → NoDup (column "Date" V) → NoDup (labels C)).
Proof.
  intros EP EV Hidx.
  destruct (combined_frame _ _ _ _ _ _ _ _ EP EV Hidx) as (HC & HkL & HkR).
  eexists. split; [exact HC|].
  set (L := map (λ r : row, fst r :: snd r) (rows P)) in *.
  set (Rv := map snd (rows V)) in *.
  set (J := join_rows 0 0 (S (length (columns P))) 2 L Rv).
  assert (Hocc : ∀ d,
    occurrences d (labels {| index_name := Some "Date";
                             columns := columns P ++ ["Volume"];
                             rows := map (λ r : row, (key_of 0 (snd r), drop_at 0 (snd r)))
                                       (merge_sort (key_le 0) (range_index J)) |})
    = join_count (occurrences d (labels P)) (occurrences d (column "Date" V))).
  { intros d. unfold labels. cbn [rows]. rewrite map_map. cbn [fst].
    rewrite (occurrences_Permutation d _
               (map (λ r : row, key_of 0 (snd r)) (range_index J))).
    2:{ apply Permutation_map, merge_sort_Permutation. }
    unfold range_index. rewrite (map_imap_ext _ _ (key_of 0)) by done.
    unfold J. rewrite join_rows_occurrences.
    - by rewrite HkL, HkR.
    - apply Forall_forall. intros l (r & -> & _)%elem_of_map. done.
    - lia. }
  split; [exact Hocc|].
  intros HnP HnV. apply occurrences_NoDup. intros d. rewrite Hocc.
  apply join_count_le_1; by apply NoDup_occurrences.
Qed.

Lemma combined_rows_per_date_witness :
  ∃ C, fst (get_combined_data Sample.env_skew None None (Sample.w0 "TSLA")) = Ok C
    ∧ NoDup (labels C).
Proof.
  destruct (combined_rows_per_date Sample.env_skew None None (Sample.w0 "TSLA")
              (snd (get_stock_data Sample.env_skew None None (Sample.w0 "TSLA")))
              (snd (get_daily_volume Sample.env_skew None None
                      (snd (get_stock_data Sample.env_skew None None (Sample.w0 "TSLA")))))
              {| index_name := Some "Date";
                 columns := ["Open"; "High"; "Low"; "Close"];
                 rows := [(Stamp 1, [Num 10; Num 11; Num 9; Num 10]);
                          (Stamp 2, [Num 20; Num 21; Num 19; Num 20]);
                          (Stamp 3, [Num 30; Num 31; Num 29; Num 30])] |}
              {| index_name := None;
                 columns := ["Date"; "Volume"];
                 rows := [(Num 0, [Stamp 2; Num 200]);
                          (Num 1, [Stamp 3; Num 300]);
                          (Num 2, [Stamp 4; Num 400])] |})
    as (C & HC & _ & Hnd).
  - vm_compute. reflexivity.
  - vm_compute. reflexivity.
  - reflexivity.
  - exists C. rewrite HC. split; [reflexivity|].
    apply Hnd; decide_it.
Defined.

(** A day that the provider lists twice comes out four times. *)
Example repeated_day_is_multiplied :
  ∃ C, fst (get_combined_data
              (mk_env (clock Sample.env0)
                 (λ _ _, Ok (Sample.bars [Sample.bar 1 10 11 9 10 100;
                                          Sample.bar 1 10 11 9 10 100])))
              None None (Sample.w0 "TSLA")) = Ok C
    ∧ labels C = [Stamp 1; Stamp 1; Stamp 1; Stamp 1].
Proof. eexists. split; vm_compute; reflexivity. Qed.

(** ** One answer, fetched twice *)

#[global] Instance cell_le_antisymm : AntiSymm (=) cell_le.
Proof.
  intros a b. unfold cell_le.
  destruct a as [|x|x], b as [|y|y]; simpl; try done;
    rewrite !Z.leb_le; intros; f_equal; lia.
Qed.

#[global] Instance label_le_trans : Transitive label_le.
Proof. intros r1 r2 r3. apply cell_le_trans. Qed.

Section OneAnswer.
Context {A : Type}.
Implicit Types (l : list A) (F : A → list cell) (κ : A → cell).

Lemma filter_unique_key F κ l x :
  (∀ y, key_of 0 (F y) = κ y) → NoDup (map κ l) → x ∈ l →
  filter (λ c, key_of 0 c = κ x) (map F l) = [F x].
Proof.
  intros HF. induction l as [|y l IH]; intros Hnd Hx; [by apply elem_of_nil in Hx|].
  cbn [map] in *. apply NoDup_cons in Hnd as [Hy Hnd].
  apply elem_of_cons in Hx as [->|Hx].
  - rewrite filter_cons_True by apply HF. f_equal.
    apply filter_none, Forall_forall. intros c (z & -> & Hz)%elem_of_map.
    rewrite HF. intros E. apply Hy. rewrite <- E. apply elem_of_map. eauto.
  - rewrite filter_cons_False; [by apply IH|].
    rewrite HF. intros E. apply Hy. rewrite E. apply elem_of_map. eauto.
Qed.

Lemma flat_map_singletons {B C} (f : B → list C) (g : A → B) (h : A → C) l :
  (∀ x, x ∈ l → f (g x) = [h x]) → flat_map f (map g l) = map h l.
Proof.
  induction l as [|x l IH]; intros Hf; [done|]. cbn [map flat_map].
  rewrite Hf by left. rewrite IH; [done|]. intros y Hy. apply Hf. by right.
Qed.

Lemma NoDup_map_inj {B} (g : A → B) l x y :
  NoDup (map g l) → x ∈ l → y ∈ l → g x = g y → x = y.
Proof.
  induction l as [|z l IH]; intros Hnd Hx Hy E; [by apply elem_of_nil in Hx|].
  cbn [map] in Hnd. apply NoDup_cons in Hnd as [Hz Hnd].
  apply elem_of_cons in Hx as [->|Hx]; apply elem_of_cons in Hy as [->|Hy].
  - done.
  - destruct Hz. rewrite E. apply elem_of_map. eauto.
  - destruct Hz. rewrite <- E. apply elem_of_map. eauto.
  - by apply IH.
Qed.

Lemma Sorted_map_inv {B} (g : A → B) (R : relation B) l :
  Sorted R (map g l) → Sorted (λ x y, R (g x) (g y)) l.
Proof.
  induction l as [|x l IH]; intros Hs; [constructor|].
  cbn [map] in Hs. apply Sorted_inv in Hs as [Hs Hhd].
  constructor; [by apply IH|].
  destruct l as [|y l]; constructor. by apply HdRel_inv in Hhd.
Qed.
End OneAnswer.

(** The join of a list of rows with itself, when no key repeats: one row for
    each row, in some order. *)
Lemma join_rows_same_keys {A} (FL FR : A → list cell) (κ : A → cell)
    (nl nr : nat) (l : list A) :
  (∀ y, key_of 0 (FL y) = κ y) → (∀ y, key_of 0 (FR y) = κ y) →
  NoDup (map κ l) →
  join_rows 0 0 nl nr (map FL l) (map FR l)
  ≡ₚ map (λ x, FL x ++ drop_at 0 (FR x)) l.
Proof.
  intros HL HR Hnd. rewrite join_rows_blocks.
  assert (HkL : map (key_of 0) (map FL l) = map κ l).
  { rewrite map_map. apply map_ext. done. }
  assert (HkR : map (key_of 0) (map FR l) = map κ l).
  { rewrite map_map. apply map_ext. done. }
  rewrite HkL, HkR.
  assert (Hkeys : join_keys (map κ l) (map κ l) ≡ₚ map κ l).
  { apply NoDup_Permutation; [apply join_keys_NoDup|done|].
    intros k. rewrite join_keys_elem. tauto. }
  rewrite Hkeys. rewrite (flat_map_singletons _ _ (λ x, FL x ++ drop_at 0 (FR x))); [done|].
  intros x Hx. unfold join_block. cbv zeta.
  rewrite (filter_unique_key FL κ l x), (filter_unique_key FR κ l x) by done.
  reflexivity.
Qed.

(** X8: when the provider gives the same bars to both requests and no date
    repeats, [get_combined_data] returns these bars with their five fields:
    as many rows as the answer has, ordered by date; and when the answer
    already is in the order of its dates, exactly its rows, one after the
    other. *)
Theorem combined_of_one_answer env (s e : option string) (w : World) (R : DataFrame) :
  clock_ok env → daily_bars R → NoDup (labels R) →
  history env (request_of env s e w) (length (requests w)) = Ok R →
  history env (request_of env s e (asked (request_of env s e w) (ticked w)))
    (S (length (requests w))) = Ok R →
  ∃ C, fst (get_combined_data env s e w) = Ok C
    ∧ index_name C = Some "Date"
    ∧ columns C = ["Open"; "High"; "Low"; "Close"; "Volume"]
    ∧ rows C ≡ₚ map (five_fields R) (rows R)
    ∧ length (rows C) = length (rows R)
    ∧ Sorted label_le (rows C)
    ∧ (Sorted cell_le (labels R) → rows C = map (five_fields R) (rows R)).
Proof.
  intros Hclock Hb Hnd H1 H2.
  pose proof Hb as (Hi & Hndc & _). pose proof (daily_bars_fields _ Hb) as [Hall Hvol].
  set (P0 := {| index_name := Some "Date";
                columns := ["Open"; "High"; "Low"; "Close"];
                rows := map (λ r : row,
                          (fst r, map (λ n, cell_at R n r)
                                    ["Open"; "High"; "Low"; "Close"])) (rows R) |}).
  set (V0 := {| index_name := None;
                columns := ["Date"; "Volume"];
                rows := range_index
                          (map (λ r : row, [fst r; cell_at R "Volume" r]) (rows R)) |}).
  assert (EP : get_stock_data env s e w
               = (Ok P0, asked (request_of env s e w) (ticked w))).
  { rewrite get_stock_data_run by done. cbv zeta. rewrite H1. cbn [obind].
    unfold prices_of. rewrite getitem_NoDup by done. by rewrite Hi. }
  assert (EV : get_daily_volume env s e (asked (request_of env s e w) (ticked w))
               = (Ok V0, asked (request_of env s e (asked (request_of env s e w) (ticked w)))
                           (ticked (asked (request_of env s e w) (ticked w))))).
  { rewrite get_daily_volume_run by done. cbv zeta. rewrite asked_length, H2.
    cbn [obind]. rewrite volume_of_NoDup by (try done; by rewrite Hi). done. }
  destruct (combined_frame _ _ _ _ _ _ _ _ EP EV eq_refl) as (HC & _ & _).
  set (FL := λ r : row, fst r :: map (λ n, cell_at R n r) ["Open"; "High"; "Low"; "Close"]).
  set (FR := λ r : row, [fst r; cell_at R "Volume" r]).
  assert (HL : map (λ r : row, fst r :: snd r) (rows P0) = map FL (rows R)).
  { unfold P0. cbn [rows]. by rewrite map_map. }
  assert (HR : map snd (rows V0) = map FR (rows R)).
  { unfold V0. cbn [rows]. apply range_index_snd. }
  set (J := join_rows 0 0 5 2 (map FL (rows R)) (map FR (rows R))).
  set (g := λ r : row, (key_of 0 (snd r), drop_at 0 (snd r))).
  exists {| index_name := Some "Date";
            columns := ["Open"; "High"; "Low"; "Close"; "Volume"];
            rows := map g (merge_sort (key_le 0) (range_index J)) |}.
  split.
  { rewrite HC. cbn [fst]. unfold J. rewrite <- HL, <- HR. reflexivity. }
  cbn [index_name columns rows].
  split; [done|]. split; [done|].
  assert (HJ : J ≡ₚ map (λ r, FL r ++ drop_at 0 (FR r)) (rows R)).
  { apply (join_rows_same_keys FL FR fst); done. }
  assert (Hperm : map g (merge_sort (key_le 0) (range_index J))
                  ≡ₚ map (five_fields R) (rows R)).
  { rewrite merge_sort_Permutation. unfold range_index, g.
    rewrite (map_imap_ext _ _ (λ c, (key_of 0 c, drop_at 0 c))) by done.
    rewrite HJ, map_map. done. }
  assert (Hsorted : Sorted label_le (map g (merge_sort (key_le 0) (range_index J)))).
  { change (map g ?l) with (g <$> l).
    apply (Sorted_fmap _ (key_le 0) label_le); [by intros r1 r2|].
    apply Sorted_merge_sort, _. }
  split; [done|]. split; [|split; [done|]].
  - rewrite Hperm. apply length_map.
  - intros HsR. symmetry. apply (Sorted_unique_strong label_le); [| |done|done].
    + intros x1 x2 (r1 & -> & Hr1)%elem_of_map Hx2 H12 H21.
      rewrite Hperm in Hx2. apply elem_of_map in Hx2 as (r2 & -> & Hr2).
      assert (E : fst r1 = fst r2)
        by (apply (anti_symm cell_le); [exact H12|exact H21]).
      by rewrite (NoDup_map_inj fst (rows R) r1 r2).
    + apply Sorted_map_inv in HsR.
      change (map ?f ?l) with (f <$> l).
      apply (Sorted_fmap _ (λ x y : row, cell_le (fst x) (fst y)) label_le); done.
Qed.

Lemma combined_of_one_answer_witness :
  ∃ C, fst (get_combined_data Sample.env0 (Some "2024-05-01") (Some "2024-12-29")
              (Sample.w0 "TSLA")) = Ok C
    ∧ rows C = [(Stamp 739007, [Num 182; Num 185; Num 180; Num 184; Num 1000]);
                (Stamp 739008, [Num 184; Num 186; Num 181; Num 183; Num 1200]);
                (Stamp 739009, [Num 183; Num 190; Num 183; Num 189; Num 900])].
Proof.
  destruct (combined_of_one_answer Sample.env0 (Some "2024-05-01") (Some "2024-12-29")
              (Sample.w0 "TSLA") (Sample.bars Sample.may))
    as (C & HC & _ & _ & _ & _ & _ & Heq).
  - sample_clock.
  - split; [reflexivity|]. split; decide_it.
  - decide_it.
  - reflexivity.
  - reflexivity.
  - exists C. split; [exact HC|]. rewrite Heq; [reflexivity|].
    apply (bool_decide_unpack _). vm_compute. reflexivity.
Defined.

(** ** Nothing is dropped *)

(** X9: the combined frame is rectangular, and it keeps every row of the price
    frame and every row of the volume frame: each price row comes back with a
    volume cell appended, each volume row as the last cell of a row for its
    date. *)
Theorem combined_keeps_every_row env (s e : option string) (w w1 w2 : World)
    (P V : DataFrame) :
  get_stock_data env s e w = (Ok P, w1) →
  get_daily_volume env s e w1 = (Ok V, w2) →
  index_name P = Some "Date" →
  ∃ C, get_combined_data env s e w = (Ok C, w2)
    ∧ wf C
    ∧ (∀ d p, (d, p) ∈ rows P → ∃ v, (d, p ++ [v]) ∈ rows C)
    ∧ (∀ d v, volume_on V d v →
         ∃ p, length p = length (columns P) ∧ (d, p ++ [v]) ∈ rows C).
Proof.
  intros EP EV Hidx.
  destruct (combined_frame _ _ _ _ _ _ _ _ EP EV Hidx) as (HC & HkL & HkR).
  destruct (get_stock_data_inv _ _ _ _ _ _ EP) as (R1 & HP).
  destruct (get_daily_volume_inv _ _ _ _ _ _ EV) as (R2 & HV).
  apply getitem_shape in HP as (_ & _ & _ & HwfP).
  apply volume_of_shape in HV as (_ & _ & Hshape & _).
  unfold wf in HwfP. rewrite Forall_forall in HwfP, Hshape.
  eexists. split; [exact HC|]. cbn [rows columns].
  set (L := map (λ r : row, fst r :: snd r) (rows P)) in *.
  set (Rv := map snd (rows V)) in *.
  set (n := length (columns P)).
  assert (HL : ∀ d p, (d, p) ∈ rows P → d :: p ∈ L ∧ length p = n).
  { intros d p Hp. split; [|exact (HwfP _ Hp)].
    apply elem_of_map. by exists (d, p). }
  assert (HR : ∀ d v, volume_on V d v → [d; v] ∈ Rv).
  { intros d v [k Hk]. apply elem_of_map. by exists (k, [d; v]). }
  assert (HR' : ∀ r, r ∈ Rv → ∃ d v, r = [d; v] ∧ volume_on V d v).
  { intros r ([k c] & -> & Hr)%elem_of_map.
    destruct (Hshape _ Hr) as (d & v & Hc). simpl in Hc. subst c.
    exists d, v. split; [done|]. by exists k. }
  assert (HL' : ∀ l, l ∈ L → ∃ d p, l = d :: p ∧ (d, p) ∈ rows P ∧ length p = n).
  { intros l ([d p] & -> & Hr)%elem_of_map. exists d, p.
    split; [done|]. split; [done|]. exact (HwfP _ Hr). }
  split; [|split].
  - unfold wf. cbn [rows columns]. apply Forall_forall. intros [d x] Hx.
    apply (sorted_frame_elem (λ c, (key_of 0 c, drop_at 0 c))) in Hx as (c & Hc & E).
    injection E as -> ->. rewrite length_app. cbn [snd length]. fold n.
    apply join_rows_elem in Hc
      as [(l & r & Hl & Hr & _ & ->)|[(l & Hl & _ & ->)|(r & Hr & _ & ->)]].
    + apply HL' in Hl as (d0 & p & -> & _ & Hlen).
      apply HR' in Hr as (d1 & v & -> & _).
      unfold drop_at. cbn [firstn skipn app].
      rewrite ?drop_0, ?length_app, ?length_replicate. cbn [length]. lia.
    + apply HL' in Hl as (d0 & p & -> & _ & Hlen).
      unfold drop_at. cbn [firstn skipn app Nat.sub replicate].
      rewrite ?drop_0, ?length_app, ?length_replicate. cbn [length]. lia.
    + apply HR' in Hr as (d1 & v & -> & _).
      unfold drop_at. cbn [firstn skipn app replicate list_insert insert].
      rewrite ?drop_0, ?length_app, ?length_replicate. cbn [length]. lia.
  - intros d p Hp. destruct (HL _ _ Hp) as [Hl _].
    destruct (decide (d ∈ map (key_of 0) Rv)) as [Hin|Hnin].
    + apply elem_of_map in Hin as (r & Hk & Hr).
      destruct (HR' _ Hr) as (d1 & v & -> & _). cbn in Hk. subst d1.
      exists v. apply (sorted_frame_elem (λ c, (key_of 0 c, drop_at 0 c))).
      exists ((d :: p) ++ drop_at 0 [d; v]). split; [|done].
      apply join_rows_elem. left. exists (d :: p), [d; v]. done.
    + exists NA. apply (sorted_frame_elem (λ c, (key_of 0 c, drop_at 0 c))).
      exists ((d :: p) ++ replicate (2 - 1) NA). split; [|done].
      apply join_rows_elem. right; left. exists (d :: p). done.
  - intros d v Hv. pose proof (HR _ _ Hv) as Hr.
    destruct (decide (d ∈ map (key_of 0) L)) as [Hin|Hnin].
    + apply elem_of_map in Hin as (l & Hk & Hl).
      destruct (HL' _ Hl) as (d0 & p & -> & _ & Hlen). cbn in Hk. subst d0.
      exists p. split; [done|].
      apply (sorted_frame_elem (λ c, (key_of 0 c, drop_at 0 c))).
      exists ((d :: p) ++ drop_at 0 [d; v]). split; [|done].
      apply join_rows_elem. left. exists (d :: p), [d; v]. done.
    + exists (replicate n NA). split; [apply length_replicate|].
      apply (sorted_frame_elem (λ c, (key_of 0 c, drop_at 0 c))).
      exists ((<[0%nat := key_of 0 [d; v]]> (replicate (S n) NA)) ++ drop_at 0 [d; v]).
      split; [|done].
      apply join_rows_elem. right; right. exists [d; v]. done.
Qed.

Lemma combined_keeps_every_row_witness :
  ∃ C, fst (get_combined_data Sample.env_skew None None (Sample.w0 "TSLA")) = Ok C
    ∧ wf C
    ∧ ∃ v, (Stamp 1, [Num 10; Num 11; Num 9; Num 10] ++ [v]) ∈ rows C.
Proof.
  destruct (combined_keeps_every_row Sample.env_skew None None (Sample.w0 "TSLA")
              (snd (get_stock_data Sample.env_skew None None (Sample.w0 "TSLA")))
              (snd (get_daily_volume Sample.env_skew None None
                      (snd (get_stock_data Sample.env_skew None None (Sample.w0 "TSLA")))))
              {| index_name := Some "Date";
                 columns := ["Open"; "High"; "Low"; "Close"];
                 rows := [(Stamp 1, [Num 10; Num 11; Num 9; Num 10]);
                          (Stamp 2, [Num 20; Num 21; Num 19; Num 20]);
                          (Stamp 3, [Num 30; Num 31; Num 29; Num 30])] |}
              {| index_name := None;
                 columns := ["Date"; "Volume"];
                 rows := [(Num 0, [Stamp 2; Num 200]);
                          (Num 1, [Stamp 3; Num 300]);
                          (Num 2, [Stamp 4; Num 400])] |})
    as (C & HC & Hwf & Hp & _).
  - vm_compute. reflexivity.
  - vm_compute. reflexivity.
  - reflexivity.
  - exists C. rewrite HC. split; [reflexivity|]. split; [exact Hwf|].
    apply Hp. left.
Defined.

(** ** The two readings of the clock *)

(** X10: [_get_default_dates] reads the clock twice: the end is the day of the
    first reading, the start the day 365 days before the second reading.
    When midnight passes between the two, the window is 364 days long. *)
Theorem default_dates_follow_two_readings env (w : World) :
  valid_date (clock env (S (ticks w))) → (2 ≤ year (clock env (S (ticks w))))%Z →
  ∃ s : datetime,
    valid_date s
    ∧ toordinal s = (toordinal (clock env (S (ticks w))) - 365)%Z
    ∧ _get_default_dates env w
      = (Ok (<["start_date" := strftime_Ymd s]>
               (<["end_date" := strftime_Ymd (clock env (ticks w))]> ∅)), ticked w)
    ∧ (toordinal (clock env (S (ticks w))) = (toordinal (clock env (ticks w)) + 1)%Z →
       toordinal s = (toordinal (clock env (ticks w)) - 364)%Z).
Proof.
  intros Hv Hy. destruct (sub_days_365 _ Hv Hy) as (Hsub & Hord & Hvs & _).
  exists (year_before (clock env (S (ticks w)))).
  split; [done|]. split; [done|]. split; [|lia].
  unfold _get_default_dates. rewrite bind_run. cbn [now].
  rewrite bind_run. cbn [now ticks self requests].
  rewrite bind_lift, Hsub. reflexivity.
Qed.

Lemma default_dates_follow_two_readings_witness :
  ∃ s : datetime,
    toordinal s = (toordinal (mk_datetime 2024 12 31 23 59 59 999999) - 364)%Z
    ∧ fst (_get_default_dates
             (mk_env (λ k, match k with
                           | O => mk_datetime 2024 12 31 23 59 59 999999
                           | _ => mk_datetime 2025 1 1 0 0 0 0
                           end) (history Sample.env0))
             (Sample.w0 "TSLA"))
      = Ok (<["start_date" := strftime_Ymd s]>
              (<["end_date" := "2024-12-31"]> ∅)).
Proof.
  destruct (default_dates_follow_two_readings
              (mk_env (λ k, match k with
                            | O => mk_datetime 2024 12 31 23 59 59 999999
                            | _ => mk_datetime 2025 1 1 0 0 0 0
                            end) (history Sample.env0))
              (Sample.w0 "TSLA"))
    as (s & _ & _ & Hd & H364).
  - repeat split; vm_compute; discriminate.
  - vm_compute. discriminate.
  - exists s. split.
    + apply H364. vm_compute. reflexivity.
    + rewrite Hd. reflexivity.
Defined.
